(** * resume_print: the virtual printer of [virtual_printer.py]

    A shallow embedding of the G-code interpreter ([GCodeInstruction.parse],
    [VirtualPrinter.process_line], the handlers [g28] ... [m106],
    [create_printer]) and of the replay loop [run_gcode] of
    [resume_print.py], followed by the properties established about them.

    Conventions.
    - A Python [str] is a [string]; its characters are the code points
      0..255.
    - A Python [dict] with string keys is a [gmap string _], a [set] of
      strings a [gset string].
    - A call that may raise returns the exception beside the state the
      object had when it was raised: the handlers mutate the printer in
      place, so what was assigned before a [raise] stays assigned. *)

From Stdlib Require Import ZArith String Ascii List.
From Stdlib Require PrimFloat Uint63.
From stdpp Require Import gmap strings list.

Local Open Scope string_scope.
Local Open Scope Z_scope.

(** ** Python built-ins used by the source *)

(** [s.startswith(prefix)] *)
Definition startswith (pre s : string) : bool := String.prefix pre s.

(** [s.split(sep)] for a separator of one character: the pieces between the
    occurrences of [sep], empty pieces included; never the empty list. *)
Fixpoint split (sep : ascii) (s : string) : list string :=
  match s with
  | EmptyString => [ EmptyString ]
  | String c r =>
      if Ascii.eqb c sep then EmptyString :: split sep r
      else match split sep r with
           | [] => [ String c EmptyString ]
           | w :: ws => String c w :: ws
           end
  end.

(** The characters [str.strip()] removes, among the code points 0..255:
    tab, line feed, vertical tab, form feed, carriage return, the four
    separators 28..31, space, NEL (133) and the no-break space (160). *)
Definition isspace (c : ascii) : bool :=
  let n := nat_of_ascii c in
  ((9 <=? n) && (n <=? 13) || (28 <=? n) && (n <=? 32)
   || (n =? 133) || (n =? 160))%nat.
Arguments isspace : simpl never.

Fixpoint lstrip (s : string) : string :=
  match s with
  | EmptyString => EmptyString
  | String c r => if isspace c then lstrip r else s
  end.

Fixpoint rstrip (s : string) : string :=
  match s with
  | EmptyString => EmptyString
  | String c r =>
      match rstrip r with
      | EmptyString => if isspace c then EmptyString else String c EmptyString
      | r' => String c r'
      end
  end.

(** [s.strip()] *)
Definition strip (s : string) : string := rstrip (lstrip s).

(** ** Numbers

    The source computes with Python floats ([float] is the type of every
    declared parameter) and with the integer literal [0].  The float
    operations it relies on are an interface: the conversion [float(s)] of a
    string, which raises [ValueError] on a malformed literal ([None] here),
    float addition, and the conversion of an [int] operand of a mixed
    addition, which raises [OverflowError] when the integer is too large
    for a float ([None] here) and never does on 0. *)
Class PyFloat (float : Type) := {
  float_of_str : string -> option float;
  float_add : float -> float -> float;
  float_of_int : Z -> option float;
  float_of_int_0 : is_Some (float_of_int 0)
}.

Section Interpreter.
Context {float : Type} `{PyFloat float}.

Inductive PyNum :=
| PInt (i : Z)
| PFloat (f : float).

(** [a + b] on numbers: integer addition on two ints, float addition after
    converting an int operand otherwise; [None] when that conversion raises
    [OverflowError]. *)
Definition py_add (a b : PyNum) : option PyNum :=
  match a, b with
  | PInt i, PInt j => Some (PInt (i + j))
  | PInt i, PFloat g => (fun f => PFloat (float_add f g)) <$> float_of_int i
  | PFloat f, PInt j => (fun g => PFloat (float_add f g)) <$> float_of_int j
  | PFloat f, PFloat g => Some (PFloat (float_add f g))
  end.

(** The builtin [float] as a parameter type. *)
Definition py_float (s : string) : option PyNum := PFloat <$> float_of_str s.

(** ** Exceptions

    The messages of the source's [RuntimeError]s are f-strings; they are
    kept as the values interpolated into them. *)
Inductive ErrMsg :=
| unknown_instruction (cmd : string)
    (* f'unknown instruction {cmd}' *)
| has_no_parameter (cmd letter : string)
    (* f'{cmd} has no parameter {arg[0]}' *)
| required_arguments_missing (cmd : string) (missing : gset string).
    (* f'required arguments missing for {cmd}: {missing}' *)

Inductive PyExc :=
| RuntimeError (msg : ErrMsg)
| UnboundLocalError (var : string)
    (* a local variable read before its first assignment *)
| IndexError
    (* [arg[0]] on the empty string *)
| ValueError (literal : string)
    (* [float(literal)] on a malformed literal *)
| TypeError
    (* [None += number]: unsupported operand type(s) for +=; the message
       gives the two operand types and nothing else *)
| OverflowError.
    (* [int += float] or [float += int] with an integer too large to
       convert to float; the message says so and nothing else *)

(** The name of the exception's class. *)
Definition exc_class (e : PyExc) : string :=
  match e with
  | RuntimeError _ => "RuntimeError"
  | UnboundLocalError _ => "UnboundLocalError"
  | IndexError => "IndexError"
  | ValueError _ => "ValueError"
  | TypeError => "TypeError"
  | OverflowError => "OverflowError"
  end.

(** The command codes, parameter letters and coordinates an exception's
    message names. *)
Definition exc_names (e : PyExc) : gset string :=
  match e with
  | RuntimeError (unknown_instruction cmd) => {[ cmd ]}
  | RuntimeError (has_no_parameter cmd letter) => {[ cmd; letter ]}
  | RuntimeError (required_arguments_missing cmd missing) => {[ cmd ]} ∪ missing
  | UnboundLocalError var => {[ var ]}
  | IndexError | ValueError _ | TypeError | OverflowError => ∅
  end.

(** ** class Parameter (the name is a reserved word here) *)
Record GParameter := {
  char : string;
  type : string -> option PyNum
}.

(** The handler functions of the module, by name. *)
Inductive Handler :=
| h_g28 | h_g0 | h_m104 | h_m140 | h_g90 | h_g91 | h_g92
| h_m82 | h_m83 | h_m106.

(** ** class GCodeInstruction *)
Record GCodeInstruction := {
  cmd : string;
  required_params : gmap string GParameter;
  optional_params : gmap string GParameter;
  func : Handler;
  instr_ignore_unknown : bool
}.

(** The property [params]: a copy of [required_params] updated with
    [optional_params], whose entries win. *)
Definition params (self : GCodeInstruction) : gmap string GParameter :=
  optional_params self ∪ required_params self.

(** The body of [for arg in args] in [parse], with the locals [d],
    [required] and [p] it reads and assigns; [p] is unbound ([None]) until
    the first recognised argument has been handled. *)
Fixpoint parse_loop (self : GCodeInstruction) (cmd : string)
    (args : list string)
    (d : gmap string PyNum) (required : gset string) (p : option GParameter)
  : PyExc + (gmap string PyNum * gset string) :=
  match args with
  | [] => inr (d, required)
  | arg :: args' =>
      match arg with
      | EmptyString => inl IndexError
      | String c literal =>
          let arg0 := String c EmptyString in
          match params self !! arg0 with
          | None =>
              if instr_ignore_unknown self
              then parse_loop self cmd args' d required p
              else inl (RuntimeError (has_no_parameter cmd arg0))
          | Some p_new =>
              (* if arg[0] in self.required_params: required.add(p.char) *)
              match
                (if bool_decide (is_Some (required_params self !! arg0))
                 then match p with
                      | None => inl (UnboundLocalError "p")
                      | Some p_old => inr ({[ char p_old ]} ∪ required)
                      end
                 else inr required)
              with
              | inl exc => inl exc
              | inr required' =>
                  (* p = self.params[arg[0]]; d[p.char] = p.type(arg[1:]) *)
                  match type p_new literal with
                  | None => inl (ValueError literal)
                  | Some v =>
                      parse_loop self cmd args'
                        (<[ char p_new := v ]> d) required' (Some p_new)
                  end
              end
          end
      end
  end.

(** [GCodeInstruction.parse] *)
Definition parse (self : GCodeInstruction) (gcode : string)
  : PyExc + gmap string PyNum :=
  match split " " gcode with
  | [] => inl IndexError (* never taken: [split] returns at least one piece *)
  | cmd :: args =>
      match parse_loop self cmd args ∅ ∅ None with
      | inl exc => inl exc
      | inr (d, required) =>
          let missing := dom (required_params self) ∖ required in
          if bool_decide (missing = ∅) then inr d
          else inl (RuntimeError (required_arguments_missing cmd missing))
      end
  end.

(** ** class VirtualPrinter

    The coordinates, the feed rate, the temperatures and the fan speed hold
    a number or [None]. *)
Record VirtualPrinter := {
  x : option PyNum;
  y : option PyNum;
  z : option PyNum;
  e : option PyNum;
  feed_rate : option PyNum;
  bed_temp : option PyNum;
  hotend_temp : option PyNum;
  fan_speed : option PyNum;
  ignore_unknown : bool;
  abs_mode : bool;
  abs_e_mode : bool;
  instruction_set : gmap string GCodeInstruction
}.

(** Attribute assignment [self.f = v], one function per attribute. *)
Definition set_x (v : option PyNum) (self : VirtualPrinter) : VirtualPrinter :=
  {| x := v;
     y := y self;
     z := z self;
     e := e self;
     feed_rate := feed_rate self;
     bed_temp := bed_temp self;
     hotend_temp := hotend_temp self;
     fan_speed := fan_speed self;
     ignore_unknown := ignore_unknown self;
     abs_mode := abs_mode self;
     abs_e_mode := abs_e_mode self;
     instruction_set := instruction_set self |}.

Definition set_y (v : option PyNum) (self : VirtualPrinter) : VirtualPrinter :=
  {| x := x self;
     y := v;
     z := z self;
     e := e self;
     feed_rate := feed_rate self;
     bed_temp := bed_temp self;
     hotend_temp := hotend_temp self;
     fan_speed := fan_speed self;
     ignore_unknown := ignore_unknown self;
     abs_mode := abs_mode self;
     abs_e_mode := abs_e_mode self;
     instruction_set := instruction_set self |}.

Definition set_z (v : option PyNum) (self : VirtualPrinter) : VirtualPrinter :=
  {| x := x self;
     y := y self;
     z := v;
     e := e self;
     feed_rate := feed_rate self;
     bed_temp := bed_temp self;
     hotend_temp := hotend_temp self;
     fan_speed := fan_speed self;
     ignore_unknown := ignore_unknown self;
     abs_mode := abs_mode self;
     abs_e_mode := abs_e_mode self;
     instruction_set := instruction_set self |}.

Definition set_e (v : option PyNum) (self : VirtualPrinter) : VirtualPrinter :=
  {| x := x self;
     y := y self;
     z := z self;
     e := v;
     feed_rate := feed_rate self;
     bed_temp := bed_temp self;
     hotend_temp := hotend_temp self;
     fan_speed := fan_speed self;
     ignore_unknown := ignore_unknown self;
     abs_mode := abs_mode self;
     abs_e_mode := abs_e_mode self;
     instruction_set := instruction_set self |}.

Definition set_feed_rate (v : option PyNum) (self : VirtualPrinter) : VirtualPrinter :=
  {| x := x self;
     y := y self;
     z := z self;
     e := e self;
     feed_rate := v;
     bed_temp := bed_temp self;
     hotend_temp := hotend_temp self;
     fan_speed := fan_speed self;
     ignore_unknown := ignore_unknown self;
     abs_mode := abs_mode self;
     abs_e_mode := abs_e_mode self;
     instruction_set := instruction_set self |}.

Definition set_bed_temp (v : option PyNum) (self : VirtualPrinter) : VirtualPrinter :=
  {| x := x self;
     y := y self;
     z := z self;
     e := e self;
     feed_rate := feed_rate self;
     bed_temp := v;
     hotend_temp := hotend_temp self;
     fan_speed := fan_speed self;
     ignore_unknown := ignore_unknown self;
     abs_mode := abs_mode self;
     abs_e_mode := abs_e_mode self;
     instruction_set := instruction_set self |}.

Definition set_hotend_temp (v : option PyNum) (self : VirtualPrinter) : VirtualPrinter :=
  {| x := x self;
     y := y self;
     z := z self;
     e := e self;
     feed_rate := feed_rate self;
     bed_temp := bed_temp self;
     hotend_temp := v;
     fan_speed := fan_speed self;
     ignore_unknown := ignore_unknown self;
     abs_mode := abs_mode self;
     abs_e_mode := abs_e_mode self;
     instruction_set := instruction_set self |}.

Definition set_fan_speed (v : option PyNum) (self : VirtualPrinter) : VirtualPrinter :=
  {| x := x self;
     y := y self;
     z := z self;
     e := e self;
     feed_rate := feed_rate self;
     bed_temp := bed_temp self;
     hotend_temp := hotend_temp self;
     fan_speed := v;
     ignore_unknown := ignore_unknown self;
     abs_mode := abs_mode self;
     abs_e_mode := abs_e_mode self;
     instruction_set := instruction_set self |}.

Definition set_ignore_unknown (v : bool) (self : VirtualPrinter) : VirtualPrinter :=
  {| x := x self;
     y := y self;
     z := z self;
     e := e self;
     feed_rate := feed_rate self;
     bed_temp := bed_temp self;
     hotend_temp := hotend_temp self;
     fan_speed := fan_speed self;
     ignore_unknown := v;
     abs_mode := abs_mode self;
     abs_e_mode := abs_e_mode self;
     instruction_set := instruction_set self |}.

Definition set_abs_mode (v : bool) (self : VirtualPrinter) : VirtualPrinter :=
  {| x := x self;
     y := y self;
     z := z self;
     e := e self;
     feed_rate := feed_rate self;
     bed_temp := bed_temp self;
     hotend_temp := hotend_temp self;
     fan_speed := fan_speed self;
     ignore_unknown := ignore_unknown self;
     abs_mode := v;
     abs_e_mode := abs_e_mode self;
     instruction_set := instruction_set self |}.

Definition set_abs_e_mode (v : bool) (self : VirtualPrinter) : VirtualPrinter :=
  {| x := x self;
     y := y self;
     z := z self;
     e := e self;
     feed_rate := feed_rate self;
     bed_temp := bed_temp self;
     hotend_temp := hotend_temp self;
     fan_speed := fan_speed self;
     ignore_unknown := ignore_unknown self;
     abs_mode := abs_mode self;
     abs_e_mode := v;
     instruction_set := instruction_set self |}.

Definition set_instruction_set (v : gmap string GCodeInstruction) (self : VirtualPrinter) : VirtualPrinter :=
  {| x := x self;
     y := y self;
     z := z self;
     e := e self;
     feed_rate := feed_rate self;
     bed_temp := bed_temp self;
     hotend_temp := hotend_temp self;
     fan_speed := fan_speed self;
     ignore_unknown := ignore_unknown self;
     abs_mode := abs_mode self;
     abs_e_mode := abs_e_mode self;
     instruction_set := v |}.

(** [VirtualPrinter.__init__]; the value passed for [abs_mode] may be of
    any type. *)
Definition VirtualPrinter_init {A : Type}
    (x y z e bed_temp hotend_temp fan_speed feed_rate : option PyNum)
    (ignore_unknown : bool) (abs_mode : A) : VirtualPrinter :=
  {| x := x; y := y; z := z; e := e;
     feed_rate := feed_rate;
     bed_temp := bed_temp; hotend_temp := hotend_temp;
     fan_speed := fan_speed;
     ignore_unknown := ignore_unknown;
     abs_mode := true;
     abs_e_mode := true;
     instruction_set := ∅ |}.

(** The dict comprehension [{p[0]: Parameter(p[0], p[1]) for p in ps}]: a
    later pair replaces an earlier one with the same letter. *)
Definition param_dict (ps : list (string * (string -> option PyNum)))
  : gmap string GParameter :=
  foldl (fun m p => <[ p.1 := {| char := p.1; type := p.2 |} ]> m) ∅ ps.

(** [VirtualPrinter.register_gcode] *)
Definition register_gcode (cmd : string)
    (required_params optional_params : list (string * (string -> option PyNum)))
    (func : Handler) (ignore_unknown : bool) (self : VirtualPrinter)
  : VirtualPrinter :=
  let required := param_dict required_params in
  let optional := param_dict optional_params in
  set_instruction_set
    (<[ cmd := {| cmd := cmd; required_params := required;
                  optional_params := optional; func := func;
                  instr_ignore_unknown := ignore_unknown |} ]>
       (instruction_set self))
    self.

(** ** Statements on the printer

    A statement runs on the printer and leaves it, possibly changed, with
    the exception it raised if it raised one. *)
Definition Outcome : Type := VirtualPrinter * option PyExc.
Definition Stmt : Type := VirtualPrinter -> Outcome.

(** A block of statements: each runs on what the one before left; the
    first exception ends the block. *)
Fixpoint block (body : list Stmt) : Stmt :=
  fun printer =>
    match body with
    | [] => (printer, None)
    | s :: body' =>
        match s printer with
        | (printer', None) => block body' printer'
        | (printer', Some exc) => (printer', Some exc)
        end
    end.

(** [args.get(key, default)] *)
Definition args_get (args : gmap string PyNum) (key : string)
    (default : option PyNum) : option PyNum :=
  match args !! key with
  | Some v => Some v
  | None => default
  end.

(** [printer.f = rhs] *)
Definition assign {V : Type} (set : V -> VirtualPrinter -> VirtualPrinter)
    (rhs : VirtualPrinter -> V) : Stmt :=
  fun printer => (set (rhs printer) printer, None).

(** [printer.f += rhs]: a [TypeError] when an operand is [None], an
    [OverflowError] when the addition raises it, and then nothing is
    assigned. *)
Definition aug_add (get : VirtualPrinter -> option PyNum)
    (set : option PyNum -> VirtualPrinter -> VirtualPrinter)
    (rhs : VirtualPrinter -> option PyNum) : Stmt :=
  fun printer =>
    match get printer, rhs printer with
    | Some a, Some b =>
        match py_add a b with
        | Some sum => (set (Some sum) printer, None)
        | None => (printer, Some OverflowError)
        end
    | _, _ => (printer, Some TypeError)
    end.

(** ** The handlers *)

Definition g28 (printer : VirtualPrinter) (args : gmap string PyNum) : Outcome :=
  block [ assign set_x (fun _ => Some (PInt 0));
          assign set_y (fun _ => Some (PInt 0));
          assign set_z (fun _ => Some (PInt 0)) ] printer.

Definition g0 (printer : VirtualPrinter) (args : gmap string PyNum) : Outcome :=
  block
    [ (fun printer =>
         if abs_mode printer then
           block [ assign set_x (fun printer => args_get args "X" (x printer));
                   assign set_y (fun printer => args_get args "Y" (y printer));
                   assign set_z (fun printer => args_get args "Z" (z printer)) ]
             printer
         else
           block [ aug_add x set_x (fun _ => args_get args "X" (Some (PInt 0)));
                   aug_add y set_y (fun _ => args_get args "Y" (Some (PInt 0)));
                   aug_add z set_z (fun _ => args_get args "Z" (Some (PInt 0))) ]
             printer);
      (fun printer =>
         if abs_e_mode printer then
           assign set_e (fun printer => args_get args "E" (e printer)) printer
         else
           aug_add e set_e (fun _ => args_get args "E" (Some (PInt 0))) printer);
      assign set_feed_rate
        (fun printer => args_get args "F" (feed_rate printer)) ]
    printer.

Definition m104 (printer : VirtualPrinter) (args : gmap string PyNum) : Outcome :=
  assign set_hotend_temp
    (fun printer => args_get args "S" (hotend_temp printer)) printer.

Definition m140 (printer : VirtualPrinter) (args : gmap string PyNum) : Outcome :=
  assign set_bed_temp
    (fun printer => args_get args "S" (bed_temp printer)) printer.

Definition g90 (printer : VirtualPrinter) (args : gmap string PyNum) : Outcome :=
  block [ assign set_abs_mode (fun _ => true);
          assign set_abs_e_mode (fun _ => true) ] printer.

Definition g91 (printer : VirtualPrinter) (args : gmap string PyNum) : Outcome :=
  block [ assign set_abs_mode (fun _ => false);
          assign set_abs_e_mode (fun _ => false) ] printer.

Definition g92 (printer : VirtualPrinter) (args : gmap string PyNum) : Outcome :=
  block [ assign set_x (fun printer => args_get args "X" (x printer));
          assign set_y (fun printer => args_get args "Y" (y printer));
          assign set_z (fun printer => args_get args "Z" (z printer));
          assign set_e (fun printer => args_get args "E" (e printer)) ] printer.

Definition m82 (printer : VirtualPrinter) (args : gmap string PyNum) : Outcome :=
  assign set_abs_e_mode (fun _ => true) printer.

Definition m83 (printer : VirtualPrinter) (args : gmap string PyNum) : Outcome :=
  assign set_abs_e_mode (fun _ => false) printer.

Definition m106 (printer : VirtualPrinter) (args : gmap string PyNum) : Outcome :=
  assign set_fan_speed
    (fun printer => args_get args "S" (fan_speed printer)) printer.

(** [instr.func(self, args)] *)
Definition call (f : Handler) : VirtualPrinter -> gmap string PyNum -> Outcome :=
  match f with
  | h_g28 => g28 | h_g0 => g0 | h_m104 => m104 | h_m140 => m140
  | h_g90 => g90 | h_g91 => g91 | h_g92 => g92
  | h_m82 => m82 | h_m83 => m83 | h_m106 => m106
  end.

(** ** The dispatcher *)

(** [VirtualPrinter.process_line] *)
Definition process_line (self : VirtualPrinter) (gcode : string) : Outcome :=
  if startswith ";" gcode then (self, None)
  else
    let gcode := strip (hd EmptyString (split ";" gcode)) in
    let cmd := hd EmptyString (split " " gcode) in
    match instruction_set self !! cmd with
    | None =>
        if ignore_unknown self then (self, None)
        else (self, Some (RuntimeError (unknown_instruction cmd)))
    | Some instr =>
        match parse instr gcode with
        | inl exc => (self, Some exc)
        | inr args => call (func instr) self args
        end
    end.

(** [create_printer] *)
Definition create_printer : VirtualPrinter :=
  let p := VirtualPrinter_init None None None None None None None None true true in
  let p := register_gcode "G28" [] [] h_g28 true p in
  let p := register_gcode "G0" []
             [("X", py_float); ("Y", py_float); ("Z", py_float);
              ("E", py_float); ("F", py_float)] h_g0 true p in
  let p := register_gcode "G1" []
             [("X", py_float); ("Y", py_float); ("Z", py_float);
              ("E", py_float)] h_g0 true p in
  let p := register_gcode "M104" [] [("S", py_float)] h_m104 true p in
  let p := register_gcode "M109" [] [("S", py_float)] h_m104 true p in
  let p := register_gcode "M140" [] [("S", py_float)] h_m140 true p in
  let p := register_gcode "M190" [] [("S", py_float)] h_m140 true p in
  let p := register_gcode "M106" [] [("S", py_float)] h_m106 true p in
  let p := register_gcode "G90" [] [] h_g90 true p in
  let p := register_gcode "G91" [] [] h_g91 true p in
  let p := register_gcode "M82" [] [] h_m82 true p in
  let p := register_gcode "M83" [] [] h_m83 true p in
  let p := register_gcode "G92" []
             [("X", py_float); ("Y", py_float); ("Z", py_float);
              ("E", py_float)] h_g92 true p in
  p.

(** [run_gcode] of [resume_print.py]: the lines in order; an exception
    leaves the loop. *)
Fixpoint run_gcode (printer : VirtualPrinter) (gcode : list string) : Outcome :=
  match gcode with
  | [] => (printer, None)
  | line :: gcode' =>
      match process_line printer line with
      | (printer', None) => run_gcode printer' gcode'
      | (printer', Some exc) => (printer', Some exc)
      end
  end.

End Interpreter.

Arguments PyNum : clear implicits.
Arguments GParameter : clear implicits.
Arguments GCodeInstruction : clear implicits.
Arguments VirtualPrinter : clear implicits.
Arguments Outcome : clear implicits.
Arguments Stmt : clear implicits.

(** ** Binary64 floats for concrete runs

    The kernel's floats with the decimal literals [[+-]digits[.digits]] of
    at most 15 digits, a fragment of what [float(s)] accepts on which the
    quotient of the digits by the power of ten is the correctly rounded
    value, and the conversion of an integer to the nearest float.  Only the
    runs on concrete lines at the end use it. *)
Module Binary64.

Definition digit (c : ascii) : option Z :=
  let n := Z.of_nat (nat_of_ascii c) in
  if (48 <=? n) && (n <=? 57) then Some (n - 48) else None.

(** The digits read so far as [m], and how many followed the point. *)
Fixpoint decimal (s : string) (seen : bool) (frac : option nat) (m : Z)
  : option (Z * nat) :=
  match s with
  | EmptyString => if seen then Some (m, default 0%nat frac) else None
  | String c r =>
      if Ascii.eqb c "." then
        match frac with
        | None => decimal r seen (Some 0%nat) m
        | Some _ => None
        end
      else
        match digit c with
        | Some k => decimal r true (S <$> frac) (10 * m + k)
        | None => None
        end
  end.

(** The float of a digit string's value, for values below 2^63. *)
Definition of_small (i : Z) : PrimFloat.float :=
  PrimFloat.of_uint63 (Uint63.of_Z i).

(** The float nearest to a natural number, ties to even, as Python
    converts an int; [None] when it is 2^1024 or more after rounding.  A
    number of more than 63 bits is cut to its 62 leading bits, the lowest
    one set when a bit was cut off, which rounds as the whole number does. *)
Definition of_natural (i : Z) : option PrimFloat.float :=
  if i <? 2 ^ 63 then Some (of_small i)
  else if 1024 <=? Z.log2 i then None
  else
    let s := Z.log2 i - 61 in
    let sticky := if Z.land i (Z.ones s) =? 0 then 0 else 1 in
    let f :=
      PrimFloat.ldshiftexp (of_small (Z.lor (Z.shiftr i s) sticky))
        (Uint63.of_Z (s + 2101)) in
    if PrimFloat.is_infinity f then None else Some f.

Definition of_int (i : Z) : option PrimFloat.float :=
  if 0 <=? i then of_natural i else PrimFloat.opp <$> of_natural (- i).

Definition unsigned (s : string) : option PrimFloat.float :=
  match decimal s false None 0 with
  | Some (m, k) =>
      if (m <? 10 ^ 15) && (Nat.leb k 15)
      then Some (PrimFloat.div (of_small m) (of_small (10 ^ Z.of_nat k)))
      else None
  | None => None
  end.

Definition of_str (s : string) : option PrimFloat.float :=
  match s with
  | String c r =>
      if Ascii.eqb c "-" then PrimFloat.opp <$> unsigned r
      else if Ascii.eqb c "+" then unsigned r
      else unsigned s
  | EmptyString => None
  end.

#[export] Instance binary64 : PyFloat PrimFloat.float :=
  {| float_of_str := of_str;
     float_add := PrimFloat.add;
     float_of_int := of_int;
     float_of_int_0 := ex_intro _ _ eq_refl |}.

End Binary64.

(** [VirtualPrinter(ignore_unknown=False)]: nothing registered, unknown
    commands refused. *)
Definition strict_printer : VirtualPrinter PrimFloat.float :=
  VirtualPrinter_init None None None None None None None None false true.

(** M104 declared with S required, as
    [register_gcode('M104', [('S', float)], [], m104, ignore_unknown)]
    declares it. *)
Definition m104_required (ignore_unknown : bool)
  : GCodeInstruction PrimFloat.float :=
  {| cmd := "M104";
     required_params := param_dict [("S", py_float (H := Binary64.binary64))];
     optional_params := param_dict [];
     func := h_m104;
     instr_ignore_unknown := ignore_unknown |}.

(** G5 declared with X and Y required and Z optional, as
    [register_gcode('G5', [('X', float), ('Y', float)], [('Z', float)], g0)]
    declares it. *)
Definition g5_required : GCodeInstruction PrimFloat.float :=
  {| cmd := "G5";
     required_params :=
       param_dict [("X", py_float (H := Binary64.binary64));
                   ("Y", py_float (H := Binary64.binary64))];
     optional_params := param_dict [("Z", py_float (H := Binary64.binary64))];
     func := h_g0;
     instr_ignore_unknown := true |}.

(** The printer of [create_printer] with both modes relative, as [G91]
    leaves them. *)
Definition relative_printer : VirtualPrinter PrimFloat.float :=
  set_abs_e_mode false
    (set_abs_mode false (create_printer (H := Binary64.binary64))).

(** The relative printer with x, y, z at the integer 0, as [G28] leaves
    them, and e at the integer 0. *)
Definition homed_relative_printer : VirtualPrinter PrimFloat.float :=
  set_e (Some (PInt 0))
    (set_z (Some (PInt 0))
       (set_y (Some (PInt 0)) (set_x (Some (PInt 0)) relative_printer))).

(** * resume_print.py: the file and log helpers

    A text file is what iterating it yields: its lines, each with its line
    feed when it has one; [f.read()] is its content as one string. *)

Definition newline : ascii := "010"%char.

(** [read_lines(file_path, start, end)]: the loop over [enumerate(f)],
    [line_number] being the index of [line]; [end_ = None] for the default
    [end=None].  The [break] leaves the loop at the first index that
    reaches [end]. *)
Fixpoint read_lines_from (line_number : Z) (f : list string) (start : Z)
    (end_ : option Z) : list string :=
  match f with
  | [] => []
  | line :: f' =>
      if match end_ with Some stop => stop <=? line_number | None => false end
      then []
      else
        (if start <=? line_number then [ strip line ] else [])
          ++ read_lines_from (line_number + 1) f' start end_
  end.

Definition read_lines (f : list string) (start : Z) (end_ : option Z)
  : list string :=
  read_lines_from 0 f start end_.

(** [for line in f]: the lines of the content, each with the line feed
    that ends it; the last one has none when the content does not end with
    a line feed. *)
Fixpoint file_lines (content : string) : list string :=
  match content with
  | EmptyString => []
  | String c r =>
      if Ascii.eqb c newline then String c EmptyString :: file_lines r
      else match file_lines r with
           | [] => [ String c EmptyString ]
           | line :: lines => String c line :: lines
           end
  end.

(** The lines one after the other, as one string. *)
Definition concat_lines (lines : list string) : string :=
  foldr String.append EmptyString lines.

(** [sep.join(pieces)] for a separator of one character. *)
Fixpoint join (sep : ascii) (pieces : list string) : string :=
  match pieces with
  | [] => EmptyString
  | [ piece ] => piece
  | piece :: pieces' => piece +:+ String sep (join sep pieces')
  end.

(** The number of occurrences of a character. *)
Fixpoint count_char (c : ascii) (s : string) : nat :=
  match s with
  | EmptyString => 0%nat
  | String c' r => ((if Ascii.eqb c' c then 1 else 0) + count_char c r)%nat
  end.

(** [linenr_of(file_path, search_str)] on the content of the file.
    [content.index(search_str)] is the lowest position at which
    [search_str] occurs and raises [ValueError] when there is none; the
    source then compares the position with -1. *)
Definition linenr_of (content search_str : string) : PyExc + Z :=
  match String.index 0 search_str content with
  | None => inl (ValueError search_str)
  | Some index =>
      if Z.of_nat index =? -1 then inr (-1)
      else inr (Z.of_nat (length (split newline (substring 0 index content))))
  end.

(** ** The pattern [G\d+.*\*]

    A pattern of the shape the source uses is a sequence of character
    classes, each taken once, zero or more times or one or more times; a
    repetition is greedy and gives back one character at a time, as the
    [re] module tries them. *)
Inductive Repeat := Once | ZeroOrMore | OneOrMore.

(** [cls*] followed by what [rest] matches: the longest run first. *)
Fixpoint greedy (cls : ascii -> bool) (rest : string -> option nat)
    (s : string) : option nat :=
  match s with
  | EmptyString => rest EmptyString
  | String c r =>
      if cls c then
        match greedy cls rest r with
        | Some n => Some (S n)
        | None => rest s
        end
      else rest s
  end.

(** The length of the match of the pattern at the start of [s]. *)
Fixpoint match_here (pattern : list ((ascii -> bool) * Repeat)) (s : string)
  : option nat :=
  match pattern with
  | [] => Some 0%nat
  | (cls, rep) :: pattern' =>
      match rep with
      | Once =>
          match s with
          | String c r => if cls c then S <$> match_here pattern' r else None
          | EmptyString => None
          end
      | ZeroOrMore => greedy cls (match_here pattern') s
      | OneOrMore =>
          match s with
          | String c r =>
              if cls c then S <$> greedy cls (match_here pattern') r else None
          | EmptyString => None
          end
      end
  end.

(** [pattern.search(s)]: the match at the leftmost position that has one,
    as [(m.start(), m.end())], counted from [pos]. *)
Fixpoint search (pattern : list ((ascii -> bool) * Repeat)) (pos : nat)
    (s : string) : option (nat * nat) :=
  match match_here pattern s with
  | Some n => Some (pos, (pos + n)%nat)
  | None =>
      match s with
      | EmptyString => None
      | String _ r => search pattern (S pos) r
      end
  end.

(** [\d] on the code points 0..255. *)
Definition isdigit (c : ascii) : bool :=
  let n := nat_of_ascii c in ((48 <=? n) && (n <=? 57))%nat.
Arguments isdigit : simpl never.

(** [gcode_pattern = re.compile(r"G\d+.*\*")]; the dot matches every
    character but the line feed. *)
Definition gcode_pattern : list ((ascii -> bool) * Repeat) :=
  [ (Ascii.eqb "G", Once);
    (isdigit, OneOrMore);
    (fun c => negb (Ascii.eqb c newline), ZeroOrMore);
    (Ascii.eqb "*", Once) ].

(** What [gcode_in_log] can raise: [m.start()] when [search] found nothing
    and [m] is [None]. *)
Inductive LogExc := AttributeError.

(** [gcode_in_log(file_path)] on the lines of the log. *)
Fixpoint gcode_in_log (f : list string) : LogExc + list string :=
  match f with
  | [] => inr []
  | line :: f' =>
      if startswith "Send" line then
        match search gcode_pattern 0 line with
        | None => inl AttributeError
        | Some (m_start, m_end) =>
            match gcode_in_log f' with
            | inl exc => inl exc
            | inr gcode =>
                inr (substring m_start (m_end - 1 - m_start) line :: gcode)
            end
        end
      else if startswith "Recv" line then gcode_in_log f'
      else inr []
  end.

(** * Properties *)

Section Properties.
Context {float : Type} `{PyFloat float}.

(** The text of a line that [process_line] keeps once the line is known not
    to begin with the comment marker: [gcode.split(';')[0].strip()]. *)
Definition code_part (line : string) : string :=
  strip (hd EmptyString (split ";" line)).

(** A token that [parse] takes without raising: a letter followed by a
    literal, where the letter is undeclared and ignored by policy, or
    declared with a literal its type converts. *)
Definition well_formed_token (self : GCodeInstruction float) (arg : string) : Prop :=
  match arg with
  | EmptyString => False
  | String c literal =>
      match params self !! String c EmptyString with
      | None => instr_ignore_unknown self = true
      | Some q => is_Some (type q literal)
      end
  end.

(** The literal of the last token of [args] that begins with [letter]. *)
Fixpoint last_literal (letter : ascii) (args : list string) : option string :=
  match args with
  | [] => None
  | arg :: args' =>
      match last_literal letter args' with
      | Some literal => Some literal
      | None =>
          match arg with
          | String c literal =>
              if Ascii.eqb c letter then Some literal else None
          | EmptyString => None
          end
      end
  end.

(** The declaration [create_printer] registers for a command: no required
    parameter, the given optional ones, unknown letters ignored. *)
Definition declaration (cmd : string)
    (optional : list (string * (string -> option (PyNum float)))) (func : Handler)
  : GCodeInstruction float :=
  {| cmd := cmd; required_params := param_dict [];
     optional_params := param_dict optional; func := func;
     instr_ignore_unknown := true |}.

(** A token that does not carry a required letter. *)
Definition optional_token (self : GCodeInstruction float) (arg : string) : Prop :=
  match arg with
  | EmptyString => True
  | String c _ => required_params self !! String c EmptyString = None
  end.

(** What a coordinate holds after a line that sets the coordinates given in
    it: the conversion of the last literal given for [letter], or the old
    value when the letter is not given. *)
Definition given (letter : ascii) (args : list string) (old : option (PyNum float))
  : option (PyNum float) :=
  match last_literal letter args with
  | Some literal => py_float literal
  | None => old
  end.

(** A field to which [+=] can add a float or the integer 0 without
    [OverflowError]: it holds nothing, a float, or an integer that converts
    to float. *)
Definition addable (v : option (PyNum float)) : Prop :=
  match v with
  | Some (PInt i) => is_Some (float_of_int i)
  | _ => True
  end.

(** A parsed map whose values are all floats, as the parameter types of
    [create_printer] make them. *)
Definition floats (d : gmap string (PyNum float)) : Prop :=
  forall k v, d !! k = Some v -> exists f, v = PFloat f.

(** An exception of a class named [InvalidStateError] whose message names
    the coordinate. *)
Definition InvalidStateError_naming (coordinate : string) (exc : PyExc) : Prop :=
  exc_class exc = "InvalidStateError" /\ coordinate ∈ exc_names exc.

(** ** Strings *)

Lemma split_not_nil sep s : split sep s <> [].
Proof.
  destruct s as [|c r]; simpl; [discriminate|].
  destruct (Ascii.eqb c sep); [discriminate|].
  destruct (split sep r); discriminate.
Qed.

Lemma startswith_marker c r : startswith ";" (String c r) = true -> c = ";"%char.
Proof.
  unfold startswith. cbn [String.prefix].
  destruct (Ascii.ascii_dec ";" c); [auto | discriminate].
Qed.

Lemma isspace_not_semicolon c : isspace c = true -> Ascii.eqb c ";" = false.
Proof.
  destruct (Ascii.eqb_spec c ";") as [->|]; [|reflexivity].
  vm_compute. discriminate.
Qed.

Lemma rstrip_head c r c' r' : rstrip (String c r) = String c' r' -> c' = c.
Proof.
  simpl. destruct (rstrip r); [destruct (isspace c)|]; congruence.
Qed.

Lemma rstrip_empty s : rstrip s = EmptyString -> lstrip s = EmptyString.
Proof.
  induction s as [|c r IH]; simpl; [reflexivity|].
  destruct (rstrip r); [|discriminate].
  destruct (isspace c); [intros _; auto | discriminate].
Qed.

(** A string of blanks only has a single piece, itself. *)
Lemma split_blank s : lstrip s = EmptyString -> split ";" s = [s].
Proof.
  induction s as [|c r IH]; simpl; [reflexivity|].
  destruct (isspace c) eqn:Hc; [|discriminate].
  intros Hr. rewrite (isspace_not_semicolon _ Hc), (IH Hr). reflexivity.
Qed.

(** When the first character that is not a blank is the comment marker, the
    piece before the marker holds blanks only. *)
Lemma split_blank_then_comment s r' :
  lstrip s = String ";" r' ->
  lstrip (hd EmptyString (split ";" s)) = EmptyString.
Proof.
  induction s as [|c r IH]; simpl; [discriminate|].
  destruct (isspace c) eqn:Hc.
  - intros Hr. rewrite (isspace_not_semicolon _ Hc).
    specialize (IH Hr).
    destruct (split ";" r) as [|w ws]; simpl in *; rewrite Hc; auto.
  - intros Heq. inversion Heq; subst. reflexivity.
Qed.

Lemma strip_blank s : lstrip s = EmptyString -> strip s = EmptyString.
Proof. unfold strip. intros ->. reflexivity. Qed.

(** Nothing is left of a blank line, nor of a line whose first character
    after the blanks is the comment marker. *)
Lemma code_part_blank_or_comment line :
  strip line = EmptyString \/ startswith ";" (strip line) = true ->
  code_part line = EmptyString.
Proof.
  unfold code_part. intros [Hb|Hc].
  - apply rstrip_empty in Hb.
    assert (Hl : lstrip line = EmptyString).
    { revert Hb. clear. induction line as [|c r IH]; simpl; [auto|].
      destruct (isspace c) eqn:Hc; [auto|]. simpl. rewrite Hc. auto. }
    rewrite (split_blank _ Hl). simpl. apply strip_blank, Hl.
  - unfold strip in Hc.
    destruct (lstrip line) as [|c r] eqn:Hl; [discriminate|].
    destruct (rstrip (String c r)) as [|c' r'] eqn:Hr; [discriminate|].
    apply rstrip_head in Hr. subst c'.
    apply startswith_marker in Hc. subst c.
    apply strip_blank. eapply split_blank_then_comment, Hl.
Qed.

(** ** The parser *)

(** Without required parameters the loop never reads [p] before assigning
    it: on well-formed tokens it ends normally, and the value recorded for a
    letter is the conversion of the last literal given for it. *)
Lemma parse_loop_optional self cmd args :
  required_params self = ∅ ->
  (forall k (q : GParameter float), params self !! k = Some q -> char q = k) ->
  Forall (well_formed_token self) args ->
  forall d required p,
  exists d', parse_loop self cmd args d required p = inr (d', required) /\
    forall c, d' !! String c EmptyString =
      match last_literal c args, params self !! String c EmptyString with
      | Some literal, Some q => type q literal
      | _, _ => d !! String c EmptyString
      end.
Proof.
  intros Hreq Hchar Hwf. induction Hwf as [|arg args Harg _ IH]; intros d required p.
  - exists d. split; [reflexivity|]. intros c. reflexivity.
  - destruct arg as [|c0 lit0]; [destruct Harg|].
    cbn [parse_loop]. unfold well_formed_token in Harg.
    destruct (params self !! String c0 EmptyString) as [q|] eqn:Hq.
    + rewrite Hreq, lookup_empty.
      rewrite bool_decide_eq_false_2 by (intros [? ?]; discriminate).
      destruct Harg as [v Hv]. rewrite Hv.
      destruct (IH (<[char q:=v]> d) required (Some q)) as (d' & -> & Hd').
      exists d'. split; [reflexivity|]. intros c. rewrite Hd'.
      cbn [last_literal]. rewrite (Hchar _ _ Hq).
      destruct (last_literal c args) as [lit|].
      * destruct (params self !! String c EmptyString) eqn:Hc; [reflexivity|].
        rewrite lookup_insert_ne; [reflexivity|]. congruence.
      * destruct (Ascii.eqb_spec c0 c) as [->|Hne].
        -- rewrite Hq, lookup_insert_eq. auto.
        -- rewrite lookup_insert_ne by congruence.
           destruct (params self !! String c EmptyString); reflexivity.
    + rewrite Harg.
      destruct (IH d required p) as (d' & -> & Hd').
      exists d'. split; [reflexivity|]. intros c. rewrite Hd'.
      cbn [last_literal].
      destruct (last_literal c args) as [lit|]; [reflexivity|].
      destruct (Ascii.eqb_spec c0 c) as [->|Hne]; [rewrite Hq|]; reflexivity.
Qed.

(** Every key the loop adds to the map is the [char] of the parameter
    declared for the letter of one of the tokens. *)
Lemma parse_loop_keys self cmd args :
  forall d required p d' required' k,
  parse_loop self cmd args d required p = inr (d', required') ->
  is_Some (d' !! k) ->
  is_Some (d !! k) \/
  exists c literal (q : GParameter float),
    In (String c literal) args /\
    params self !! String c EmptyString = Some q /\ char q = k.
Proof.
  induction args as [|arg args IH]; intros d required p d' required' k.
  - cbn. intros [= <- <-]. auto.
  - destruct arg as [|c0 lit0]; cbn [parse_loop]; [discriminate|].
    destruct (params self !! String c0 EmptyString) as [q|] eqn:Hq.
    + destruct (if bool_decide _ then _ else _) as [|required1]; [discriminate|].
      destruct (type q lit0) as [v|]; [|discriminate].
      intros Hrun Hk. destruct (IH _ _ _ _ _ _ Hrun Hk) as [Hin|Hdecl].
      * destruct (decide (char q = k)) as [<-|Hne].
        -- right. exists c0, lit0, q. cbn. auto.
        -- rewrite lookup_insert_ne in Hin by done. auto.
      * right. destruct Hdecl as (c & literal & q' & Hin & Hdecl).
        exists c, literal, q'. cbn. auto.
    + destruct (instr_ignore_unknown self); [|discriminate].
      intros Hrun Hk. destruct (IH _ _ _ _ _ _ Hrun Hk) as [Hin|Hdecl]; [auto|].
      right. destruct Hdecl as (c & literal & q' & Hin & Hdecl).
      exists c, literal, q'. cbn. auto.
Qed.

Lemma param_dict_char ps k (q : GParameter float) :
  param_dict ps !! k = Some q -> char q = k.
Proof.
  unfold param_dict.
  assert (Hgen : forall m : gmap string (GParameter float),
             (forall k (q : GParameter float), m !! k = Some q -> char q = k) ->
             forall k (q : GParameter float),
               foldl (fun m p => <[ p.1 := {| char := p.1; type := p.2 |} ]> m)
                     m ps !! k = Some q -> char q = k).
  { induction ps as [|[a t] ps IH]; intros m Hm; [exact Hm|].
    cbn [foldl]. apply IH. intros k' q'.
    destruct (decide (a = k')) as [->|Hne].
    - rewrite lookup_insert_eq. intros [= <-]. reflexivity.
    - rewrite lookup_insert_ne by done. apply Hm. }
  apply Hgen. intros k' q'. rewrite lookup_empty. discriminate.
Qed.

Lemma declaration_char cmd optional func k (q : GParameter float) :
  params (declaration cmd optional func) !! k = Some q -> char q = k.
Proof.
  unfold params, declaration. cbn [optional_params required_params].
  intros [Hq|[_ Hq]]%lookup_union_Some_raw; eapply param_dict_char, Hq.
Qed.

(** On well-formed tokens, parsing for a declaration without required
    parameters succeeds; the map holds, for each declared letter given in
    the line, the conversion of its last literal, and nothing for a letter
    not given. *)
Lemma parse_optional self gcode cmd args :
  split " " gcode = cmd :: args ->
  required_params self = ∅ ->
  (forall k (q : GParameter float), params self !! k = Some q -> char q = k) ->
  Forall (well_formed_token self) args ->
  exists d, parse self gcode = inr d /\
    forall c, d !! String c EmptyString =
      match last_literal c args, params self !! String c EmptyString with
      | Some literal, Some q => type q literal
      | _, _ => None
      end.
Proof.
  intros Hsplit Hreq Hchar Hwf. unfold parse. rewrite Hsplit.
  destruct (parse_loop_optional self cmd args Hreq Hchar Hwf ∅ ∅ None)
    as (d & -> & Hd).
  exists d. rewrite Hreq, dom_empty_L, difference_diag_L.
  split; [reflexivity|]. intros c. rewrite Hd, lookup_empty.
  destruct (last_literal c args), (params self !! String c EmptyString); reflexivity.
Qed.

Lemma last_literal_well_formed self c args literal :
  last_literal c args = Some literal ->
  Forall (well_formed_token self) args ->
  well_formed_token self (String c literal).
Proof.
  intros Hlast Hwf. induction Hwf as [|arg args Harg _ IH]; [discriminate|].
  cbn [last_literal] in Hlast.
  destruct (last_literal c args); [auto|].
  destruct arg as [|c0 lit0]; [discriminate|].
  destruct (Ascii.eqb_spec c0 c) as [->|]; [|discriminate].
  injection Hlast as <-. exact Harg.
Qed.

(** ** The dispatcher *)

Lemma code_part_comment line :
  startswith ";" line = true -> code_part line = EmptyString.
Proof.
  destruct line as [|c r]; [reflexivity|].
  intros ->%startswith_marker. reflexivity.
Qed.

(** A line with a command code is handed to the declaration registered for
    the code. *)
Lemma process_line_dispatch self line cmd args instr :
  split " " (code_part line) = cmd :: args ->
  cmd <> EmptyString ->
  instruction_set self !! cmd = Some instr ->
  process_line self line =
    match parse instr (code_part line) with
    | inl exc => (self, Some exc)
    | inr d => call (func instr) self d
    end.
Proof.
  intros Hsplit Hcmd Hinstr. unfold process_line.
  destruct (startswith ";" line) eqn:Hc.
  - rewrite (code_part_comment _ Hc) in Hsplit.
    injection Hsplit as <- _. congruence.
  - fold (code_part line). rewrite Hsplit. cbn [hd]. rewrite Hinstr. reflexivity.
Qed.

Lemma create_printer_G28 :
  instruction_set create_printer !! "G28" = Some (declaration "G28" [] h_g28).
Proof. reflexivity. Qed.

Lemma create_printer_G0 :
  instruction_set create_printer !! "G0" =
    Some (declaration "G0"
            [("X", py_float); ("Y", py_float); ("Z", py_float);
             ("E", py_float); ("F", py_float)] h_g0).
Proof. reflexivity. Qed.

Lemma create_printer_G1 :
  instruction_set create_printer !! "G1" =
    Some (declaration "G1"
            [("X", py_float); ("Y", py_float); ("Z", py_float);
             ("E", py_float)] h_g0).
Proof. reflexivity. Qed.

Lemma create_printer_G92 :
  instruction_set create_printer !! "G92" =
    Some (declaration "G92"
            [("X", py_float); ("Y", py_float); ("Z", py_float);
             ("E", py_float)] h_g92).
Proof. reflexivity. Qed.

(** ** The constructor *)

(** C10: a freshly constructed [VirtualPrinter] starts with position mode
    and extrusion mode absolute whatever is passed for [abs_mode]: the
    constructor does not read that argument. *)
Theorem C10_init_ignores_abs_mode (A : Type)
    (x0 y0 z0 e0 bed hotend fan feed : option (PyNum float)) (policy : bool) (mode : A) :
  abs_mode (VirtualPrinter_init x0 y0 z0 e0 bed hotend fan feed policy mode) = true /\
  abs_e_mode (VirtualPrinter_init x0 y0 z0 e0 bed hotend fan feed policy mode) = true.
Proof. split; reflexivity. Qed.

(** ** Comments, blank lines and homing *)

(** C6, as the code has it: a line that begins with the comment marker is
    skipped under either policy.  A blank line, or a line with blanks before
    the marker, reaches the lookup with the empty command code: where that
    code is not registered the line is skipped under the ignore policy and
    raises [RuntimeError('unknown instruction ')] under the fail policy; the
    state is as before in both cases. *)
Theorem C6_comment_and_blank_lines (self : VirtualPrinter float) (line : string) :
  (startswith ";" line = true -> process_line self line = (self, None)) /\
  (strip line = EmptyString \/ startswith ";" (strip line) = true ->
   instruction_set self !! EmptyString = None ->
   process_line self line =
     if startswith ";" line || ignore_unknown self then (self, None)
     else (self, Some (RuntimeError (unknown_instruction EmptyString)))).
Proof.
  split.
  - intros Hc. unfold process_line. rewrite Hc. reflexivity.
  - intros Hblank Hreg. unfold process_line.
    destruct (startswith ";" line); [reflexivity|].
    fold (code_part line). rewrite (code_part_blank_or_comment _ Hblank).
    cbn [split hd]. rewrite Hreg. cbn [orb].
    destruct (ignore_unknown self); reflexivity.
Qed.

(** C7: on a printer with the registry of [create_printer], in any state, a
    line whose command code is G28 (followed by any tokens) sets x, y and z
    to 0 and leaves e, the temperatures, the fan speed, the feed rate and
    both modal flags as they were. *)
Theorem C7_g28_homes_xyz_only (self : VirtualPrinter float) (line : string)
    (args : list string) :
  instruction_set self = instruction_set create_printer ->
  split " " (code_part line) = "G28" :: args ->
  Forall (fun arg => arg <> EmptyString) args ->
  exists self',
    process_line self line = (self', None) /\
    x self' = Some (PInt 0) /\ y self' = Some (PInt 0) /\
    z self' = Some (PInt 0) /\
    e self' = e self /\ bed_temp self' = bed_temp self /\
    hotend_temp self' = hotend_temp self /\
    fan_speed self' = fan_speed self /\ feed_rate self' = feed_rate self /\
    abs_mode self' = abs_mode self /\ abs_e_mode self' = abs_e_mode self.
Proof.
  intros Hreg Hsplit Hargs.
  rewrite (process_line_dispatch self line "G28" args (declaration "G28" [] h_g28))
    by (try rewrite Hreg; auto using create_printer_G28; discriminate).
  destruct (parse_optional (declaration "G28" [] h_g28) _ _ _ Hsplit)
    as (d & -> & _).
  - reflexivity.
  - apply declaration_char.
  - eapply Forall_impl; [exact Hargs|].
    intros [|c literal] Hne; [destruct Hne; reflexivity|reflexivity].
  - eexists. split; [reflexivity|]. repeat split.
Qed.

(** ** Set position *)

Lemma args_get_given decl args d c old :
  (forall c, d !! String c EmptyString =
     match last_literal c args, params decl !! String c EmptyString with
     | Some literal, Some q => type q literal
     | _, _ => None
     end) ->
  params decl !! String c EmptyString =
    Some {| char := String c EmptyString; type := py_float |} ->
  Forall (well_formed_token decl) args ->
  args_get d (String c EmptyString) old = given c args old.
Proof.
  intros Hd Hc Hwf. unfold args_get, given. rewrite Hd, Hc.
  destruct (last_literal c args) as [literal|] eqn:Hlast; [|reflexivity].
  pose proof (last_literal_well_formed decl c args literal Hlast Hwf) as Hlit.
  unfold well_formed_token in Hlit. rewrite Hc in Hlit.
  cbn [type] in *. destruct Hlit as [v ->]. reflexivity.
Qed.

(** C8: on a printer with the registry of [create_printer], whatever the
    position and extrusion modes, a G92 line with well-formed tokens
    overwrites each of x, y, z, e given in the line with the conversion of
    its literal (the last one when a letter is repeated) and leaves the
    coordinates not given, and every other field, as they were. *)
Theorem C8_g92_sets_given_coordinates (self : VirtualPrinter float) (line : string)
    (args : list string) :
  instruction_set self = instruction_set create_printer ->
  split " " (code_part line) = "G92" :: args ->
  Forall (well_formed_token
            (declaration "G92"
               [("X", py_float); ("Y", py_float); ("Z", py_float);
                ("E", py_float)] h_g92)) args ->
  exists self',
    process_line self line = (self', None) /\
    x self' = given "X" args (x self) /\
    y self' = given "Y" args (y self) /\
    z self' = given "Z" args (z self) /\
    e self' = given "E" args (e self) /\
    feed_rate self' = feed_rate self /\ bed_temp self' = bed_temp self /\
    hotend_temp self' = hotend_temp self /\ fan_speed self' = fan_speed self /\
    abs_mode self' = abs_mode self /\ abs_e_mode self' = abs_e_mode self.
Proof.
  intros Hreg Hsplit Hwf.
  set (decl := declaration "G92" _ h_g92) in *.
  rewrite (process_line_dispatch self line "G92" args decl)
    by (try rewrite Hreg; auto using create_printer_G92; discriminate).
  destruct (parse_optional decl _ _ _ Hsplit) as (d & -> & Hd);
    [reflexivity | apply declaration_char | exact Hwf |].
  eexists. split; [reflexivity|].
  cbn [func decl declaration call g92 block assign fst snd
       x y z e feed_rate bed_temp hotend_temp fan_speed abs_mode abs_e_mode
       set_x set_y set_z set_e].
  repeat split;
    apply (args_get_given decl args d); auto; reflexivity.
Qed.

(** ** Moves *)

(** What the default of a relative move gives: the number of the line or
    the integer 0. *)
Lemma args_get_or_zero d key :
  exists v : PyNum float, args_get d key (Some (PInt 0)) = Some v.
Proof. unfold args_get. destruct (d !! key); eauto. Qed.

Lemma args_get_or_zero_float d key :
  floats d ->
  exists v : PyNum float,
    args_get d key (Some (PInt 0)) = Some v /\
    ((exists f, v = PFloat f) \/ v = PInt 0).
Proof.
  intros Hd. unfold args_get. destruct (d !! key) as [v|] eqn:Hv; eauto.
Qed.

(** An addition that does not overflow. *)
Lemma py_add_defined (a v : PyNum float) :
  addable (Some a) -> (exists f, v = PFloat f) \/ v = PInt 0 ->
  is_Some (py_add a v).
Proof.
  intros Ha [[f ->]| ->]; destruct a as [i|g]; cbn in *; eauto.
  - destruct Ha as [fi ->]. cbn. eauto.
  - destruct float_of_int_0 as [f0 ->]. cbn. eauto.
Qed.

Local Ltac g0_paths d :=
  repeat (match goal with
          | |- context [args_get d ?k (Some (PInt 0))] =>
              destruct (args_get_or_zero d k) as [? ->]
          | |- context [match py_add ?a ?b with _ => _ end] =>
              destruct (py_add a b)
          end; cbn -[args_get py_add]).

(** What [g0] leaves when it raises: the exception is the [TypeError] or
    the [OverflowError] of an addition, and only x, y and z can have been
    assigned before it; in relative position mode an unknown one of them is
    still unknown. *)
Lemma g0_raises self d self' exc :
  g0 self d = (self', Some exc) ->
  (exc = TypeError \/ exc = OverflowError) /\
  e self' = e self /\ feed_rate self' = feed_rate self /\
  bed_temp self' = bed_temp self /\ hotend_temp self' = hotend_temp self /\
  fan_speed self' = fan_speed self /\
  ignore_unknown self' = ignore_unknown self /\
  abs_mode self' = abs_mode self /\ abs_e_mode self' = abs_e_mode self /\
  instruction_set self' = instruction_set self /\
  (abs_mode self = false ->
   (x self = None -> x self' = None) /\ (y self = None -> y self' = None) /\
   (z self = None -> z self' = None)).
Proof.
  destruct self as [x0 y0 z0 e0 fr bt ht fs iu am aem reg].
  unfold g0, aug_add, assign. cbn -[args_get py_add].
  destruct am, aem; cbn -[args_get py_add];
    destruct x0, y0, z0, e0; cbn -[args_get py_add];
    g0_paths d;
    intros [= <- <-]; cbn; repeat split; auto; discriminate.
Qed.

(** [g0] raises when a coordinate it adds to is unknown. *)
Lemma g0_unknown_coordinate self d :
  (abs_mode self = false /\ (x self = None \/ y self = None \/ z self = None)) \/
  (abs_e_mode self = false /\ e self = None) ->
  is_Some (g0 self d).2.
Proof.
  destruct self as [x0 y0 z0 e0 fr bt ht fs iu am aem reg].
  unfold g0, aug_add, assign. cbn -[args_get py_add].
  intros Hcase.
  destruct am, aem, x0, y0, z0, e0; cbn -[args_get py_add];
    g0_paths d;
    try (eexists; reflexivity); exfalso; clear -Hcase; intuition discriminate.
Qed.

Local Ltac g0_defined_paths d Hd :=
  repeat (match goal with
          | |- context [args_get d ?k (Some (PInt 0))] =>
              let Hv := fresh "Hv" in
              destruct (args_get_or_zero_float d k Hd) as (? & -> & Hv)
          | Ha : addable (Some ?a), Hv : _ \/ ?v = PInt 0
            |- context [match py_add ?a ?v with _ => _ end] =>
              let Hsum := fresh "Hsum" in
              destruct (py_add_defined a v Ha Hv) as [? Hsum]; rewrite Hsum
          end; cbn -[args_get py_add]).

(** When the known coordinates are addable and the line gives floats, the
    exception of a move on an unknown coordinate is the [TypeError]. *)
Lemma g0_unknown_coordinate_type self d :
  (abs_mode self = false /\ (x self = None \/ y self = None \/ z self = None)) \/
  (abs_e_mode self = false /\ e self = None) ->
  addable (x self) -> addable (y self) -> addable (z self) -> floats d ->
  (g0 self d).2 = Some TypeError.
Proof.
  destruct self as [x0 y0 z0 e0 fr bt ht fs iu am aem reg].
  unfold g0, aug_add, assign. cbn -[args_get py_add addable].
  intros Hcase Hx Hy Hz Hd.
  destruct am, aem, x0, y0, z0, e0; cbn -[args_get py_add addable];
    g0_defined_paths d Hd;
    try reflexivity; exfalso; clear -Hcase; intuition discriminate.
Qed.


Lemma param_dict_type ps t k (q : GParameter float) :
  Forall (fun p : string * (string -> option (PyNum float)) => p.2 = t) ps ->
  param_dict ps !! k = Some q -> type q = t.
Proof.
  unfold param_dict. intros Hps.
  assert (Hgen : forall m : gmap string (GParameter float),
             (forall k (q : GParameter float), m !! k = Some q -> type q = t) ->
             forall k (q : GParameter float),
               foldl (fun m p => <[ p.1 := {| char := p.1; type := p.2 |} ]> m)
                     m ps !! k = Some q -> type q = t).
  { induction Hps as [|[a t'] ps Ht _ IH]; intros m Hm; [exact Hm|].
    cbn [foldl]. apply IH. intros k' q'.
    destruct (decide (a = k')) as [->|Hne].
    - rewrite lookup_insert_eq. intros [= <-]. exact Ht.
    - rewrite lookup_insert_ne by done. apply Hm. }
  apply Hgen. intros k' q'. rewrite lookup_empty. discriminate.
Qed.

(** Every value the loop adds to the map is the conversion of a literal by
    the type of a declared parameter. *)
Lemma parse_loop_values (P : PyNum float -> Prop) self cmd args :
  (forall k (q : GParameter float) literal v,
     params self !! k = Some q -> type q literal = Some v -> P v) ->
  forall d required p d' required',
  parse_loop self cmd args d required p = inr (d', required') ->
  (forall k v, d !! k = Some v -> P v) ->
  forall k v, d' !! k = Some v -> P v.
Proof.
  intros Htype. induction args as [|arg args IH]; intros d required p d' required'.
  - cbn. intros [= <- <-]. auto.
  - destruct arg as [|c0 lit0]; cbn [parse_loop]; [discriminate|].
    destruct (params self !! String c0 EmptyString) as [q|] eqn:Hq.
    + destruct (if bool_decide _ then _ else _) as [|required1]; [discriminate|].
      destruct (type q lit0) as [v0|] eqn:Hv0; [|discriminate].
      intros Hrun Hd. eapply IH; [exact Hrun|].
      intros k v. destruct (decide (char q = k)) as [<-|Hne].
      * rewrite lookup_insert_eq. intros [= <-]. eapply Htype; eauto.
      * rewrite lookup_insert_ne by done. apply Hd.
    + destruct (instr_ignore_unknown self); [|discriminate]. apply IH.
Qed.

(** The map parsed for a declaration whose parameters are all of type
    float holds floats. *)
Lemma parse_floats cmd optional f gcode d :
  Forall (fun p : string * (string -> option (PyNum float)) => p.2 = py_float)
    optional ->
  parse (declaration cmd optional f) gcode = inr d -> floats d.
Proof.
  intros Hopt. unfold parse.
  destruct (split " " gcode) as [|cmd' args]; [discriminate|].
  destruct (parse_loop _ cmd' args ∅ ∅ None) as [|[d' required]] eqn:Hloop;
    [discriminate|].
  destruct (bool_decide _); [|discriminate].
  intros [= <-].
  assert (Htype : forall k (q : GParameter float) literal v,
             params (declaration cmd optional f) !! k = Some q ->
             type q literal = Some v -> exists f0, v = PFloat f0).
  { intros k q literal v Hq Hv.
    assert (Ht : type q = py_float).
    { unfold params, declaration in Hq. cbn [optional_params required_params] in Hq.
      apply lookup_union_Some_raw in Hq as [Hq|[_ Hq]].
      - eapply param_dict_type; eauto.
      - eapply (param_dict_type []); eauto. }
    rewrite Ht in Hv. unfold py_float in Hv.
    destruct (float_of_str literal) as [f0|]; [|discriminate].
    injection Hv as <-. eauto. }
  intros k v Hkv.
  apply (parse_loop_values (fun v => exists f0, v = PFloat f0) _ _ _ Htype
           _ _ _ _ _ Hloop) with k; [|exact Hkv].
  intros k' v'. rewrite lookup_empty. discriminate.
Qed.

(** The maps parsed for G0 and G1 hold floats. *)
Lemma move_floats (self : VirtualPrinter float) cmd instr gcode d :
  instruction_set self = instruction_set create_printer ->
  cmd = "G0" \/ cmd = "G1" ->
  instruction_set self !! cmd = Some instr ->
  parse instr gcode = inr d ->
  func instr = h_g0 /\ floats d.
Proof.
  intros Hreg Hcmd Hinstr Hparse. rewrite Hreg in Hinstr.
  destruct Hcmd as [-> | ->].
  - rewrite create_printer_G0 in Hinstr. injection Hinstr as <-.
    split; [reflexivity|]. eapply parse_floats; [|exact Hparse].
    repeat constructor.
  - rewrite create_printer_G1 in Hinstr. injection Hinstr as <-.
    split; [reflexivity|]. eapply parse_floats; [|exact Hparse].
    repeat constructor.
Qed.

(** C1, as the code has it: on a printer with the registry of
    [create_printer], a G0 or G1 move whose parameters parse fails when
    position mode is relative and x, y or z is unknown, or extrusion mode is
    relative and e is unknown.  The exception is the interpreter's
    [TypeError] for the addition to the unknown coordinate, or the
    [OverflowError] of an addition made before it; neither names a
    coordinate, and it is the [TypeError] whenever the known x, y and z are
    floats or integers that convert to float.  The unknown value is not
    taken for zero: e is as before, and in relative position mode an
    unknown x, y or z is still unknown. *)
Theorem C1_relative_move_unknown_coordinate (self : VirtualPrinter float)
    (line cmd : string) (args : list string) (instr : GCodeInstruction float)
    (d : gmap string (PyNum float)) :
  instruction_set self = instruction_set create_printer ->
  cmd = "G0" \/ cmd = "G1" ->
  split " " (code_part line) = cmd :: args ->
  instruction_set self !! cmd = Some instr ->
  parse instr (code_part line) = inr d ->
  (abs_mode self = false /\ (x self = None \/ y self = None \/ z self = None)) \/
  (abs_e_mode self = false /\ e self = None) ->
  exists self' exc,
    process_line self line = (self', Some exc) /\
    (exc = TypeError \/ exc = OverflowError) /\
    exc_names exc = ∅ /\
    (addable (x self) -> addable (y self) -> addable (z self) ->
     exc = TypeError) /\
    e self' = e self /\
    (abs_mode self = false ->
     (x self = None -> x self' = None) /\ (y self = None -> y self' = None) /\
     (z self = None -> z self' = None)).
Proof.
  intros Hreg Hcmd Hsplit Hinstr Hparse Hunknown.
  destruct (move_floats self cmd instr _ d Hreg Hcmd Hinstr Hparse)
    as [Hfunc Hd].
  rewrite (process_line_dispatch self line cmd args instr Hsplit)
    by (auto; destruct Hcmd as [-> | ->]; discriminate).
  rewrite Hparse, Hfunc. cbn [call].
  pose proof (g0_unknown_coordinate self d Hunknown) as Hexc.
  pose proof (g0_unknown_coordinate_type self d Hunknown) as Htype.
  destruct (g0 self d) as [self' r] eqn:Hg0. cbn [snd] in Hexc, Htype.
  destruct Hexc as [exc ->].
  destruct (g0_raises _ _ _ _ Hg0)
    as (Hexc & He & _ & _ & _ & _ & _ & _ & _ & _ & Hxyz).
  exists self', exc. repeat split; auto.
  - destruct Hexc as [-> | ->]; reflexivity.
  - intros Hx Hy Hz. specialize (Htype Hx Hy Hz Hd). congruence.
  - apply Hxyz; auto.
  - apply Hxyz; auto.
  - apply Hxyz; auto.
Qed.


(** The feed rate after [g0] when the parsed map has no F. *)
Lemma g0_feed_rate self d :
  d !! "F" = None -> feed_rate (g0 self d).1 = feed_rate self.
Proof.
  intros HF.
  assert (HgF : forall default, args_get d "F" default = default).
  { intros default. unfold args_get. rewrite HF. reflexivity. }
  destruct self as [x0 y0 z0 e0 fr bt ht fs iu am aem reg].
  unfold g0, aug_add, assign. cbn -[args_get py_add].
  destruct am, aem, x0, y0, z0, e0; cbn -[args_get py_add];
    g0_paths d; rewrite ?HgF; reflexivity.
Qed.

Lemma parse_keys self gcode d k :
  parse self gcode = inr d -> is_Some (d !! k) ->
  exists c literal (q : GParameter float),
    In (String c literal) (tl (split " " gcode)) /\
    params self !! String c EmptyString = Some q /\ char q = k.
Proof.
  unfold parse. destruct (split " " gcode) as [|cmd args]; [discriminate|].
  destruct (parse_loop self cmd args ∅ ∅ None) as [|[d' required]] eqn:Hloop;
    [discriminate|].
  destruct (bool_decide _); [|discriminate].
  intros [= <-] Hk.
  destruct (parse_loop_keys _ _ _ _ _ _ _ _ _ Hloop Hk) as [Hin|Hdecl]; [|exact Hdecl].
  rewrite lookup_empty in Hin. destruct Hin; discriminate.
Qed.

(** C3, where the code departs from it: G1 is registered without F, so on a
    printer with the registry of [create_printer] no G1 line changes the
    feed rate, whatever F it carries. *)
Theorem C3_g1_leaves_feed_rate (self : VirtualPrinter float) (line : string)
    (args : list string) :
  instruction_set self = instruction_set create_printer ->
  split " " (code_part line) = "G1" :: args ->
  feed_rate (process_line self line).1 = feed_rate self.
Proof.
  intros Hreg Hsplit.
  set (decl := declaration "G1"
                 [("X", py_float); ("Y", py_float); ("Z", py_float);
                  ("E", py_float)] h_g0).
  rewrite (process_line_dispatch self line "G1" args decl)
    by (try rewrite Hreg; auto using create_printer_G1; discriminate).
  destruct (parse decl (code_part line)) as [exc|d] eqn:Hparse; [reflexivity|].
  cbn [func decl declaration call]. apply g0_feed_rate.
  destruct (d !! "F") eqn:HF; [exfalso|reflexivity].
  destruct (parse_keys _ _ _ "F" Hparse) as (c & literal & q & _ & Hq & Hchar);
    [eauto|].
  rewrite (declaration_char _ _ _ _ _ Hq) in Hchar. rewrite Hchar in Hq.
  revert Hq. discriminate.
Qed.

(** C4, where the code departs from it: when the first token of a line
    carries a required letter, [parse] reads the local [p] before any
    assignment to it and raises [UnboundLocalError]; the line is not
    parsed. *)
Theorem C4_required_letter_first_raises (self : GCodeInstruction float)
    (gcode cmd : string) (c : ascii) (literal : string) (args : list string) :
  split " " gcode = cmd :: String c literal :: args ->
  is_Some (required_params self !! String c EmptyString) ->
  parse self gcode = inl (UnboundLocalError "p").
Proof.
  intros Hsplit Hreq. unfold parse. rewrite Hsplit. cbn [parse_loop].
  assert (Hp : is_Some (params self !! String c EmptyString)).
  { unfold params. rewrite lookup_union.
    destruct Hreq as [q ->]. destruct (optional_params self !! _); eauto. }
  destruct Hp as [q ->].
  rewrite bool_decide_eq_true_2 by exact Hreq. reflexivity.
Qed.

(** The loop ends normally, with [required] as it was, on well-formed
    tokens none of which carries a required letter. *)
Lemma parse_loop_optional_tokens self cmd args :
  Forall (fun arg => well_formed_token self arg /\ optional_token self arg) args ->
  forall d required p,
  exists d', parse_loop self cmd args d required p = inr (d', required).
Proof.
  induction 1 as [|arg args [Hwf Hopt] _ IH]; intros d required p.
  - eexists. reflexivity.
  - destruct arg as [|c0 lit0]; [destruct Hwf|].
    cbn [parse_loop]. unfold well_formed_token in Hwf. cbn in Hopt.
    destruct (params self !! String c0 EmptyString) as [q|].
    + rewrite Hopt.
      rewrite bool_decide_eq_false_2 by (intros [? ?]; discriminate).
      destruct Hwf as [v ->]. apply IH.
    + rewrite Hwf. apply IH.
Qed.

(** Along well-formed tokens none of which carries a required letter, the
    local [p] goes from one parameter that is not required to another, and
    [required] stays as it was. *)
Lemma parse_loop_optional_run self cmd args rest :
  (forall k (q : GParameter float), params self !! k = Some q -> char q = k) ->
  Forall (fun arg => well_formed_token self arg /\ optional_token self arg) args ->
  forall d required (p : GParameter float),
  required_params self !! char p = None ->
  exists d' (p' : GParameter float),
    parse_loop self cmd (args ++ rest)%list d required (Some p) =
      parse_loop self cmd rest d' required (Some p') /\
    required_params self !! char p' = None.
Proof.
  intros Hchar. induction 1 as [|arg args [Hwf Hopt] _ IH]; intros d required p Hp.
  - exists d, p. split; [reflexivity|exact Hp].
  - destruct arg as [|c0 lit0]; [destruct Hwf|].
    cbn [app parse_loop]. unfold well_formed_token in Hwf. cbn in Hopt.
    destruct (params self !! String c0 EmptyString) as [q|] eqn:Hq.
    + rewrite Hopt.
      rewrite bool_decide_eq_false_2 by (intros [? ?]; discriminate).
      destruct Hwf as [v ->]. apply IH.
      rewrite (Hchar _ _ Hq). exact Hopt.
    + rewrite Hwf. apply IH. exact Hp.
Qed.

(** C5, where the code departs from it: a required letter given after a
    declared letter that is not required is not recorded, the letter before
    it is ([required.add(p.char)] reads the parameter of the token handled
    before).  On a line of well-formed tokens that begins with a declared
    letter and carries one required letter, [parse] fails with 'required
    arguments missing' for the full set of required letters: the letter
    that was given is reported missing with the others. *)
Theorem C5_given_letter_reported_missing (self : GCodeInstruction float)
    (gcode cmd : string) (o r : ascii) (lo lr : string)
    (before after : list string) :
  split " " gcode = cmd :: (String o lo :: before ++ String r lr :: after)%list ->
  (forall k (q : GParameter float), params self !! k = Some q -> char q = k) ->
  is_Some (params self !! String o EmptyString) ->
  Forall (fun arg => well_formed_token self arg /\ optional_token self arg)
         (String o lo :: before) ->
  is_Some (required_params self !! String r EmptyString) ->
  well_formed_token self (String r lr) ->
  Forall (fun arg => well_formed_token self arg /\ optional_token self arg) after ->
  String r EmptyString ∈ dom (required_params self) /\
  parse self gcode =
    inl (RuntimeError
           (required_arguments_missing cmd (dom (required_params self)))).
Proof.
  intros Hsplit Hchar [qo Hqo] Hfirst Hreq Hwf Hafter.
  assert (Hin : String r EmptyString ∈ dom (required_params self)).
  { apply elem_of_dom. exact Hreq. }
  split; [exact Hin|].
  apply Forall_cons in Hfirst. destruct Hfirst as [[Hwfo Hopto] Hbefore].
  unfold parse. rewrite Hsplit. cbn [app parse_loop].
  unfold well_formed_token in Hwfo. cbn in Hopto. rewrite Hqo in Hwfo |- *.
  rewrite Hopto.
  rewrite bool_decide_eq_false_2 by (intros [? ?]; discriminate).
  destruct Hwfo as [vo ->].
  destruct (parse_loop_optional_run self cmd before (String r lr :: after)
              Hchar Hbefore (<[char qo:=vo]> ∅) ∅ qo) as (d1 & p1 & -> & Hp1).
  { rewrite (Hchar _ _ Hqo). exact Hopto. }
  cbn [parse_loop]. unfold well_formed_token in Hwf.
  assert (Hpr : is_Some (params self !! String r EmptyString)).
  { unfold params. rewrite lookup_union.
    destruct Hreq as [q ->]. destruct (optional_params self !! _); eauto. }
  destruct Hpr as [qr Hqr]. rewrite Hqr in Hwf |- *.
  rewrite bool_decide_eq_true_2 by exact Hreq.
  destruct Hwf as [vr ->].
  destruct (parse_loop_optional_tokens self cmd after Hafter
              (<[char qr:=vr]> d1) ({[char p1]} ∪ ∅) (Some qr)) as [d2 ->].
  assert (Hmissing : dom (required_params self) ∖ ({[char p1]} ∪ ∅) =
                     dom (required_params self)).
  { apply not_elem_of_dom in Hp1. rewrite union_empty_r_L.
    apply difference_disjoint_L, disjoint_singleton_r. exact Hp1. }
  rewrite Hmissing.
  rewrite bool_decide_eq_false_2; [reflexivity|].
  intros Hdom. rewrite Hdom in Hin. set_solver.
Qed.

(** X21: the part of C5 the code does satisfy.  For a command with at
    least one required parameter and a line of well-formed tokens none of
    which carries a required letter, [parse] fails with the [RuntimeError]
    'required arguments missing', which names the command and the full set
    of required letters, all of them missing. *)
Theorem no_required_letter_all_reported (self : GCodeInstruction float)
    (gcode cmd : string) (args : list string) :
  split " " gcode = cmd :: args ->
  required_params self <> ∅ ->
  Forall (fun arg => well_formed_token self arg /\ optional_token self arg) args ->
  parse self gcode =
    inl (RuntimeError
           (required_arguments_missing cmd (dom (required_params self)))).
Proof.
  intros Hsplit Hreq Htokens. unfold parse. rewrite Hsplit.
  destruct (parse_loop_optional_tokens self cmd args Htokens ∅ ∅ None) as [d ->].
  rewrite difference_empty_L.
  rewrite bool_decide_eq_false_2; [reflexivity|].
  intros Hdom. apply Hreq. apply dom_empty_iff_L. exact Hdom.
Qed.

(** ** Further properties of the parser and the handlers *)

Lemma last_literal_In c literal args :
  In (String c literal) args -> is_Some (last_literal c args).
Proof.
  induction args as [|arg args IH]; [intros []|].
  intros [->|Hin]; cbn [last_literal].
  - destruct (last_literal c args); [eauto|].
    rewrite Ascii.eqb_refl. eauto.
  - destruct (IH Hin) as [l ->]. eauto.
Qed.

(** X1: for a declaration without required parameters, each parameter stored
    under its own letter (as [register_gcode] stores them), parsing a line
    of well-formed tokens succeeds, and the keys of the map are exactly the
    declared letters that appear in the line. *)
Theorem parse_succeeds_without_required (self : GCodeInstruction float)
    (gcode cmd : string) (args : list string) :
  split " " gcode = cmd :: args ->
  required_params self = ∅ ->
  (forall k (q : GParameter float), params self !! k = Some q -> char q = k) ->
  Forall (well_formed_token self) args ->
  exists d, parse self gcode = inr d /\
    forall k, is_Some (d !! k) <->
      exists c literal,
        k = String c EmptyString /\ In (String c literal) args /\
        is_Some (params self !! k).
Proof.
  intros Hsplit Hreq Hchar Hwf.
  destruct (parse_optional self gcode cmd args Hsplit Hreq Hchar Hwf)
    as (d & Hparse & Hd).
  exists d. split; [exact Hparse|]. intros k. split.
  - intros Hk.
    destruct (parse_keys _ _ _ _ Hparse Hk) as (c & literal & q & Hin & Hq & Hk').
    rewrite Hsplit in Hin. cbn [tl] in Hin.
    rewrite (Hchar _ _ Hq) in Hk'. subst k. eauto 6.
  - intros (c & literal & -> & Hin & [q Hq]).
    rewrite Hd, Hq.
    destruct (last_literal_In _ _ _ Hin) as [l Hl]. rewrite Hl.
    pose proof (last_literal_well_formed self c args l Hl Hwf) as Hlit.
    unfold well_formed_token in Hlit. rewrite Hq in Hlit. exact Hlit.
Qed.

(** X2: a command code that is not registered: the line is skipped under the
    ignore policy and raises under the fail policy; the printer is as before
    either way. *)
Theorem unknown_command_policy (self : VirtualPrinter float)
    (line cmd : string) (args : list string) :
  startswith ";" line = false ->
  split " " (code_part line) = cmd :: args ->
  instruction_set self !! cmd = None ->
  process_line self line =
    if ignore_unknown self then (self, None)
    else (self, Some (RuntimeError (unknown_instruction cmd))).
Proof.
  intros Hc Hsplit Hreg. unfold process_line. rewrite Hc.
  fold (code_part line). rewrite Hsplit. cbn [hd]. rewrite Hreg. reflexivity.
Qed.

(** X3: on a printer with the registry of [create_printer] in absolute position
    and extrusion modes, a G0 line of well-formed tokens overwrites each of
    x, y, z, e and the feed rate given in the line with the conversion of
    its literal and leaves the rest as it was. *)
Theorem g0_absolute_move (self : VirtualPrinter float) (line : string)
    (args : list string) :
  instruction_set self = instruction_set create_printer ->
  split " " (code_part line) = "G0" :: args ->
  Forall (well_formed_token
            (declaration "G0"
               [("X", py_float); ("Y", py_float); ("Z", py_float);
                ("E", py_float); ("F", py_float)] h_g0)) args ->
  abs_mode self = true -> abs_e_mode self = true ->
  exists self',
    process_line self line = (self', None) /\
    x self' = given "X" args (x self) /\
    y self' = given "Y" args (y self) /\
    z self' = given "Z" args (z self) /\
    e self' = given "E" args (e self) /\
    feed_rate self' = given "F" args (feed_rate self) /\
    bed_temp self' = bed_temp self /\
    hotend_temp self' = hotend_temp self /\ fan_speed self' = fan_speed self /\
    abs_mode self' = true /\ abs_e_mode self' = true.
Proof.
  intros Hreg Hsplit Hwf Ham Haem.
  set (decl := declaration "G0" _ h_g0) in *.
  rewrite (process_line_dispatch self line "G0" args decl)
    by (try rewrite Hreg; auto using create_printer_G0; discriminate).
  destruct (parse_optional decl _ _ _ Hsplit) as (d & -> & Hd);
    [reflexivity | apply declaration_char | exact Hwf |].
  destruct self as [x0 y0 z0 e0 fr bt ht fs iu am aem reg].
  cbn in Ham, Haem. subst am aem.
  eexists. split; [reflexivity|].
  cbn [fst snd x y z e feed_rate bed_temp hotend_temp fan_speed abs_mode
       abs_e_mode set_x set_y set_z set_e set_feed_rate].
  repeat split; apply (args_get_given decl args d); auto; reflexivity.
Qed.

Lemma create_printer_modal :
  instruction_set create_printer !! "G90" = Some (declaration "G90" [] h_g90) /\
  instruction_set create_printer !! "G91" = Some (declaration "G91" [] h_g91) /\
  instruction_set create_printer !! "M82" = Some (declaration "M82" [] h_m82) /\
  instruction_set create_printer !! "M83" = Some (declaration "M83" [] h_m83).
Proof. repeat split. Qed.

(** X4: on a printer with the registry of [create_printer]: G90 and G91 set
    both modes, to absolute and to relative; M82 and M83 set the extrusion
    mode only; none of the four changes a coordinate, the feed rate, a
    temperature or the fan speed. *)
Theorem modal_commands (self : VirtualPrinter float) (line cmd : string)
    (args : list string) :
  instruction_set self = instruction_set create_printer ->
  split " " (code_part line) = cmd :: args ->
  Forall (fun arg => arg <> EmptyString) args ->
  cmd = "G90" \/ cmd = "G91" \/ cmd = "M82" \/ cmd = "M83" ->
  exists self',
    process_line self line = (self', None) /\
    abs_mode self' =
      (if String.eqb cmd "G90" then true
       else if String.eqb cmd "G91" then false else abs_mode self) /\
    abs_e_mode self' = (String.eqb cmd "G90" || String.eqb cmd "M82") /\
    x self' = x self /\ y self' = y self /\ z self' = z self /\
    e self' = e self /\ feed_rate self' = feed_rate self /\
    bed_temp self' = bed_temp self /\ hotend_temp self' = hotend_temp self /\
    fan_speed self' = fan_speed self.
Proof.
  intros Hreg Hsplit Hargs Hcmd.
  destruct create_printer_modal as (H90 & H91 & H82 & H83).
  assert (Hparse : forall f,
            exists d, parse (declaration cmd [] f) (code_part line) = inr d).
  { intros f.
    destruct (parse_optional (declaration cmd [] f) _ _ _ Hsplit) as (d & Hd & _).
    - reflexivity.
    - apply declaration_char.
    - eapply Forall_impl; [exact Hargs|].
      intros [|c literal] Hne; [destruct Hne; reflexivity|reflexivity].
    - eauto. }
  destruct Hcmd as [-> | [-> | [-> | ->]]].
  - rewrite (process_line_dispatch self line "G90" args _ Hsplit)
      by (try rewrite Hreg; eauto; discriminate).
    destruct (Hparse h_g90) as [d ->]. eexists. split; [reflexivity|].
    repeat split.
  - rewrite (process_line_dispatch self line "G91" args _ Hsplit)
      by (try rewrite Hreg; eauto; discriminate).
    destruct (Hparse h_g91) as [d ->]. eexists. split; [reflexivity|].
    repeat split.
  - rewrite (process_line_dispatch self line "M82" args _ Hsplit)
      by (try rewrite Hreg; eauto; discriminate).
    destruct (Hparse h_m82) as [d ->]. eexists. split; [reflexivity|].
    repeat split.
  - rewrite (process_line_dispatch self line "M83" args _ Hsplit)
      by (try rewrite Hreg; eauto; discriminate).
    destruct (Hparse h_m83) as [d ->]. eexists. split; [reflexivity|].
    repeat split.
Qed.

(** ** The replay as a whole *)

(** What every handler keeps: the registry and the policy, and the
    knowledge of a field (a field that holds a number holds one after). *)
Lemma call_keeps f (self : VirtualPrinter float) d :
  instruction_set (call f self d).1 = instruction_set self /\
  ignore_unknown (call f self d).1 = ignore_unknown self /\
  (is_Some (x self) -> is_Some (x (call f self d).1)) /\
  (is_Some (y self) -> is_Some (y (call f self d).1)) /\
  (is_Some (z self) -> is_Some (z (call f self d).1)) /\
  (is_Some (e self) -> is_Some (e (call f self d).1)) /\
  (is_Some (feed_rate self) -> is_Some (feed_rate (call f self d).1)) /\
  (is_Some (bed_temp self) -> is_Some (bed_temp (call f self d).1)) /\
  (is_Some (hotend_temp self) -> is_Some (hotend_temp (call f self d).1)) /\
  (is_Some (fan_speed self) -> is_Some (fan_speed (call f self d).1)).
Proof.
  assert (Hget : forall key default,
             is_Some default -> is_Some (args_get d key default)).
  { intros key default Hdefault. unfold args_get.
    destruct (d !! key); eauto. }
  destruct self as [x0 y0 z0 e0 fr bt ht fs iu am aem reg].
  destruct f; cbn [call];
    unfold g28, g0, m104, m140, g90, g91, g92, m82, m83, m106,
           aug_add, assign; cbn -[args_get py_add];
    try (destruct am, aem; cbn -[args_get py_add];
         destruct x0, y0, z0, e0; cbn -[args_get py_add];
         g0_paths d);
    repeat split; intros; eauto.
Qed.

Lemma process_line_keeps (self : VirtualPrinter float) line :
  instruction_set (process_line self line).1 = instruction_set self /\
  ignore_unknown (process_line self line).1 = ignore_unknown self /\
  (is_Some (x self) -> is_Some (x (process_line self line).1)) /\
  (is_Some (y self) -> is_Some (y (process_line self line).1)) /\
  (is_Some (z self) -> is_Some (z (process_line self line).1)) /\
  (is_Some (e self) -> is_Some (e (process_line self line).1)) /\
  (is_Some (feed_rate self) -> is_Some (feed_rate (process_line self line).1)) /\
  (is_Some (bed_temp self) -> is_Some (bed_temp (process_line self line).1)) /\
  (is_Some (hotend_temp self) -> is_Some (hotend_temp (process_line self line).1)) /\
  (is_Some (fan_speed self) -> is_Some (fan_speed (process_line self line).1)).
Proof.
  unfold process_line.
  destruct (startswith ";" line); [cbn; tauto|].
  destruct (instruction_set self !! _) as [instr|].
  - destruct (parse instr _) as [exc|d]; [cbn; tauto|]. apply call_keeps.
  - destruct (ignore_unknown self) eqn:Hpol; cbn; repeat split; auto.
Qed.

(** X5: a replay never changes the registry of the printer nor its
    unknown-command policy, whatever the lines and whether or not one of
    them raises. *)
Theorem run_gcode_keeps_registry (printer : VirtualPrinter float)
    (gcode : list string) :
  instruction_set (run_gcode printer gcode).1 = instruction_set printer /\
  ignore_unknown (run_gcode printer gcode).1 = ignore_unknown printer.
Proof.
  revert printer. induction gcode as [|line gcode IH]; intros printer.
  - split; reflexivity.
  - cbn [run_gcode].
    destruct (process_line_keeps printer line) as (Hreg & Hpol & _).
    destruct (process_line printer line) as [printer' [exc|]]; cbn [fst] in *.
    + auto.
    + destruct (IH printer') as [IHreg IHpol]. split; congruence.
Qed.

(** X6: a coordinate, the feed rate, a temperature or the fan speed that
    holds a number before a replay holds a number after it: no line makes a
    known field unknown again, not even a line that raises. *)
Theorem run_gcode_known_stays_known (printer : VirtualPrinter float)
    (gcode : list string) :
  (is_Some (x printer) -> is_Some (x (run_gcode printer gcode).1)) /\
  (is_Some (y printer) -> is_Some (y (run_gcode printer gcode).1)) /\
  (is_Some (z printer) -> is_Some (z (run_gcode printer gcode).1)) /\
  (is_Some (e printer) -> is_Some (e (run_gcode printer gcode).1)) /\
  (is_Some (feed_rate printer) ->
   is_Some (feed_rate (run_gcode printer gcode).1)) /\
  (is_Some (bed_temp printer) ->
   is_Some (bed_temp (run_gcode printer gcode).1)) /\
  (is_Some (hotend_temp printer) ->
   is_Some (hotend_temp (run_gcode printer gcode).1)) /\
  (is_Some (fan_speed printer) ->
   is_Some (fan_speed (run_gcode printer gcode).1)).
Proof.
  revert printer. induction gcode as [|line gcode IH]; intros printer.
  - cbn. tauto.
  - cbn [run_gcode].
    destruct (process_line_keeps printer line)
      as (_ & _ & Hx & Hy & Hz & He & Hfr & Hbt & Hht & Hfs).
    destruct (process_line printer line) as [printer' [exc|]]; cbn [fst] in *.
    + tauto.
    + destruct (IH printer') as (IHx & IHy & IHz & IHe & IHfr & IHbt & IHht & IHfs).
      repeat split; auto.
Qed.

(** X7: replaying two lists of lines one after the other is replaying
    their concatenation; when the first list raises, the replay has stopped
    there and the second list is not looked at. *)
Theorem run_gcode_app (printer : VirtualPrinter float)
    (gcode1 gcode2 : list string) :
  run_gcode printer (gcode1 ++ gcode2) =
    match run_gcode printer gcode1 with
    | (printer', None) => run_gcode printer' gcode2
    | (printer', Some exc) => (printer', Some exc)
    end.
Proof.
  revert printer. induction gcode1 as [|line gcode1 IH]; intros printer.
  - reflexivity.
  - cbn [app run_gcode].
    destruct (process_line printer line) as [printer' [exc|]]; [reflexivity|].
    apply IH.
Qed.

(** X8: the lines that begin with the comment marker can be removed from
    the input without changing what a replay leaves or raises. *)
Theorem run_gcode_skips_comments (printer : VirtualPrinter float)
    (gcode : list string) :
  run_gcode printer
    (List.filter (fun line => negb (startswith ";" line)) gcode) =
  run_gcode printer gcode.
Proof.
  revert printer. induction gcode as [|line gcode IH]; intros printer.
  - reflexivity.
  - cbn [List.filter run_gcode].
    destruct (startswith ";" line) eqn:Hc; cbn [negb].
    + unfold process_line. rewrite Hc. apply IH.
    + cbn [run_gcode].
      destruct (process_line printer line) as [printer' [exc|]]; [reflexivity|].
      apply IH.
Qed.

(** ** Temperatures, fan and relative moves *)

Lemma create_printer_S_commands :
  instruction_set create_printer !! "M104" =
    Some (declaration "M104" [("S", py_float)] h_m104) /\
  instruction_set create_printer !! "M109" =
    Some (declaration "M109" [("S", py_float)] h_m104) /\
  instruction_set create_printer !! "M140" =
    Some (declaration "M140" [("S", py_float)] h_m140) /\
  instruction_set create_printer !! "M190" =
    Some (declaration "M190" [("S", py_float)] h_m140) /\
  instruction_set create_printer !! "M106" =
    Some (declaration "M106" [("S", py_float)] h_m106).
Proof. repeat split. Qed.

(** The tokens of a command that declares S only. *)
Lemma S_tokens_well_formed cmd f args :
  Forall (fun arg =>
            match arg with
            | EmptyString => False
            | String c literal =>
                c = "S"%char -> is_Some (float_of_str literal)
            end) args ->
  Forall (well_formed_token (declaration cmd [("S", py_float)] f)) args.
Proof.
  intros Hargs. eapply Forall_impl; [exact Hargs|]. clear Hargs.
  intros [|c literal]; [auto|]. intros Hlit.
  unfold well_formed_token, params, declaration, param_dict.
  cbn [optional_params required_params instr_ignore_unknown foldl fst snd].
  rewrite lookup_union, lookup_empty, lookup_insert, lookup_empty.
  destruct (decide ("S" = String c EmptyString)) as [Heq|Hne]; cbn.
  - injection Heq as <-. destruct (Hlit eq_refl) as [v Hv].
    unfold py_float. rewrite Hv. cbn. eauto.
  - reflexivity.
Qed.

(** X9: on a printer with the registry of [create_printer], M104 and M109
    set the hotend temperature, M140 and M190 the bed temperature and M106
    the fan speed to the conversion of the S literal given in the line, and
    leave the field as it was when no S is given; no other field changes. *)
Theorem temperature_and_fan_commands (self : VirtualPrinter float)
    (line cmd : string) (args : list string) :
  instruction_set self = instruction_set create_printer ->
  split " " (code_part line) = cmd :: args ->
  cmd = "M104" \/ cmd = "M109" \/ cmd = "M140" \/ cmd = "M190" \/ cmd = "M106" ->
  Forall (fun arg =>
            match arg with
            | EmptyString => False
            | String c literal =>
                c = "S"%char -> is_Some (float_of_str literal)
            end) args ->
  exists self',
    process_line self line = (self', None) /\
    hotend_temp self' =
      (if String.eqb cmd "M104" || String.eqb cmd "M109"
       then given "S" args (hotend_temp self) else hotend_temp self) /\
    bed_temp self' =
      (if String.eqb cmd "M140" || String.eqb cmd "M190"
       then given "S" args (bed_temp self) else bed_temp self) /\
    fan_speed self' =
      (if String.eqb cmd "M106"
       then given "S" args (fan_speed self) else fan_speed self) /\
    x self' = x self /\ y self' = y self /\ z self' = z self /\
    e self' = e self /\ feed_rate self' = feed_rate self /\
    abs_mode self' = abs_mode self /\ abs_e_mode self' = abs_e_mode self.
Proof.
  intros Hreg Hsplit Hcmd Hargs.
  destruct create_printer_S_commands as (H104 & H109 & H140 & H190 & H106).
  assert (Hparse : forall f,
            exists d,
              parse (declaration cmd [("S", py_float)] f) (code_part line) = inr d /\
              forall old, args_get d "S" old = given "S" args old).
  { intros f.
    pose proof (S_tokens_well_formed cmd f args Hargs) as Hwf.
    destruct (parse_optional (declaration cmd [("S", py_float)] f) _ _ _ Hsplit)
      as (d & Hd & Hlookup);
      [reflexivity | apply declaration_char | exact Hwf |].
    exists d. split; [exact Hd|]. intros old.
    apply (args_get_given (declaration cmd [("S", py_float)] f) args d);
      auto; reflexivity. }
  destruct Hcmd as [-> | [-> | [-> | [-> | ->]]]].
  - rewrite (process_line_dispatch self line "M104" args _ Hsplit)
      by (try rewrite Hreg; eauto; discriminate).
    destruct (Hparse h_m104) as (d & -> & Hget).
    eexists. split; [reflexivity|]. repeat split. apply Hget.
  - rewrite (process_line_dispatch self line "M109" args _ Hsplit)
      by (try rewrite Hreg; eauto; discriminate).
    destruct (Hparse h_m104) as (d & -> & Hget).
    eexists. split; [reflexivity|]. repeat split. apply Hget.
  - rewrite (process_line_dispatch self line "M140" args _ Hsplit)
      by (try rewrite Hreg; eauto; discriminate).
    destruct (Hparse h_m140) as (d & -> & Hget).
    eexists. split; [reflexivity|]. repeat split. apply Hget.
  - rewrite (process_line_dispatch self line "M190" args _ Hsplit)
      by (try rewrite Hreg; eauto; discriminate).
    destruct (Hparse h_m140) as (d & -> & Hget).
    eexists. split; [reflexivity|]. repeat split. apply Hget.
  - rewrite (process_line_dispatch self line "M106" args _ Hsplit)
      by (try rewrite Hreg; eauto; discriminate).
    destruct (Hparse h_m106) as (d & -> & Hget).
    eexists. split; [reflexivity|]. repeat split. apply Hget.
Qed.

Lemma args_get_default d key (v0 : PyNum float) :
  exists v, args_get d key (Some v0) = Some v.
Proof. unfold args_get. destruct (d !! key); eauto. Qed.

(** X10: on a printer with the registry of [create_printer] in relative
    position and extrusion modes whose coordinates are all known, each a
    float or an integer that converts to float, a G1 line of well-formed
    tokens succeeds and adds to each of x, y, z, e the conversion of the
    literal given for it in the line, and the integer 0 when none is given;
    the feed rate, as every other field, is as before. *)
Theorem g1_relative_move (self : VirtualPrinter float) (line : string)
    (args : list string) (ax ay az ae : PyNum float) :
  instruction_set self = instruction_set create_printer ->
  split " " (code_part line) = "G1" :: args ->
  Forall (well_formed_token
            (declaration "G1"
               [("X", py_float); ("Y", py_float); ("Z", py_float);
                ("E", py_float)] h_g0)) args ->
  abs_mode self = false -> abs_e_mode self = false ->
  x self = Some ax -> y self = Some ay -> z self = Some az ->
  e self = Some ae ->
  addable (Some ax) -> addable (Some ay) -> addable (Some az) ->
  addable (Some ae) ->
  exists self' sx sy sz se,
    process_line self line = (self', None) /\
    x self' = Some sx /\ given "X" args (Some (PInt 0)) ≫= py_add ax = Some sx /\
    y self' = Some sy /\ given "Y" args (Some (PInt 0)) ≫= py_add ay = Some sy /\
    z self' = Some sz /\ given "Z" args (Some (PInt 0)) ≫= py_add az = Some sz /\
    e self' = Some se /\ given "E" args (Some (PInt 0)) ≫= py_add ae = Some se /\
    feed_rate self' = feed_rate self /\ bed_temp self' = bed_temp self /\
    hotend_temp self' = hotend_temp self /\ fan_speed self' = fan_speed self /\
    abs_mode self' = false /\ abs_e_mode self' = false.
Proof.
  intros Hreg Hsplit Hwf Ham Haem Hx Hy Hz He Hax Hay Haz Hae.
  set (decl := declaration "G1" _ h_g0) in *.
  rewrite (process_line_dispatch self line "G1" args decl)
    by (try rewrite Hreg; auto using create_printer_G1; discriminate).
  destruct (parse_optional decl _ _ _ Hsplit) as (d & Hparse & Hd);
    [reflexivity | apply declaration_char | exact Hwf |].
  assert (Hfl : floats d).
  { eapply parse_floats; [|exact Hparse]. repeat constructor. }
  rewrite Hparse.
  assert (HF : d !! "F" = None).
  { rewrite Hd. destruct (last_literal "F" args); reflexivity. }
  assert (Hget : forall c, In c ["X"; "Y"; "Z"; "E"]%char ->
            args_get d (String c EmptyString) (Some (PInt 0)) =
            given c args (Some (PInt 0))).
  { intros c Hc. apply (args_get_given decl args d); auto.
    cbn in Hc. destruct Hc as [<-|[<-|[<-|[<-|[]]]]]; reflexivity. }
  rewrite <- (Hget "X"%char), <- (Hget "Y"%char), <- (Hget "Z"%char),
    <- (Hget "E"%char) by (cbn; auto).
  destruct (args_get_or_zero_float d "X" Hfl) as (vx & Hvx & Hfx).
  destruct (args_get_or_zero_float d "Y" Hfl) as (vy & Hvy & Hfy).
  destruct (args_get_or_zero_float d "Z" Hfl) as (vz & Hvz & Hfz).
  destruct (args_get_or_zero_float d "E" Hfl) as (ve & Hve & Hfe).
  destruct (py_add_defined ax vx Hax Hfx) as [sx Hsx].
  destruct (py_add_defined ay vy Hay Hfy) as [sy Hsy].
  destruct (py_add_defined az vz Haz Hfz) as [sz Hsz].
  destruct (py_add_defined ae ve Hae Hfe) as [se Hse].
  rewrite Hvx, Hvy, Hvz, Hve.
  destruct self as [x0 y0 z0 e0 fr bt ht fs iu am aem reg].
  cbn in Ham, Haem, Hx, Hy, Hz, He. subst.
  cbn [func decl declaration call]. unfold g0, aug_add, assign.
  cbn -[args_get py_add]. rewrite Hvx, Hsx.
  cbn -[args_get py_add]. rewrite Hvy, Hsy.
  cbn -[args_get py_add]. rewrite Hvz, Hsz.
  cbn -[args_get py_add]. rewrite Hve, Hse.
  cbn -[args_get py_add]. unfold args_get. rewrite HF.
  exists (Build_VirtualPrinter (Some sx) (Some sy) (Some sz) (Some se)
            fr bt ht fs iu false false reg), sx, sy, sz, se.
  repeat split; assumption.
Qed.

(** ** Registration *)

(** X11: registering a command again replaces its declaration: the printer
    is the one a single, last registration gives; its registry holds the
    last declaration for the command and what it held before for every
    other command, and no field of the state changes. *)
Theorem register_gcode_last_wins (self : VirtualPrinter float) (cmd : string)
    (required1 optional1 required2 optional2 :
       list (string * (string -> option (PyNum float))))
    (func1 func2 : Handler) (policy1 policy2 : bool) :
  register_gcode cmd required2 optional2 func2 policy2
    (register_gcode cmd required1 optional1 func1 policy1 self) =
  register_gcode cmd required2 optional2 func2 policy2 self /\
  instruction_set (register_gcode cmd required2 optional2 func2 policy2 self)
    !! cmd =
    Some {| cmd := cmd; required_params := param_dict required2;
            optional_params := param_dict optional2; func := func2;
            instr_ignore_unknown := policy2 |} /\
  (forall cmd', cmd' <> cmd ->
     instruction_set (register_gcode cmd required2 optional2 func2 policy2 self)
       !! cmd' = instruction_set self !! cmd') /\
  x (register_gcode cmd required2 optional2 func2 policy2 self) = x self /\
  y (register_gcode cmd required2 optional2 func2 policy2 self) = y self /\
  z (register_gcode cmd required2 optional2 func2 policy2 self) = z self /\
  e (register_gcode cmd required2 optional2 func2 policy2 self) = e self /\
  abs_mode (register_gcode cmd required2 optional2 func2 policy2 self) =
    abs_mode self /\
  abs_e_mode (register_gcode cmd required2 optional2 func2 policy2 self) =
    abs_e_mode self.
Proof.
  unfold register_gcode, set_instruction_set.
  cbn [x y z e feed_rate bed_temp hotend_temp fan_speed ignore_unknown
       abs_mode abs_e_mode instruction_set].
  split; [|split; [|split]].
  - f_equal. apply insert_insert_eq.
  - apply lookup_insert_eq.
  - intros cmd' Hne. apply lookup_insert_ne. congruence.
  - repeat split.
Qed.

(** ** Reading the file *)

Lemma read_lines_from_slice (f : list string) (start : Z) (end_ : option Z) :
  forall n : Z,
  read_lines_from n f start end_ =
    strip <$> drop (Z.to_nat (start - n))
                (match end_ with
                 | Some stop => take (Z.to_nat (stop - n)) f
                 | None => f
                 end).
Proof.
  induction f as [|line f IH]; intros n.
  - cbn [read_lines_from]. destruct end_; rewrite ?take_nil, drop_nil; reflexivity.
  - cbn [read_lines_from]. rewrite IH. destruct end_ as [stop|].
    + destruct (Z.leb_spec stop n) as [Hle|Hgt].
      * replace (Z.to_nat (stop - n)) with 0%nat by lia.
        cbn [take]. rewrite drop_nil. reflexivity.
      * replace (Z.to_nat (stop - n)) with (S (Z.to_nat (stop - (n + 1)))) by lia.
        cbn [take].
        destruct (Z.leb_spec start n) as [Hs|Hs].
        -- replace (Z.to_nat (start - n)) with 0%nat by lia.
           replace (Z.to_nat (start - (n + 1))) with 0%nat by lia.
           reflexivity.
        -- replace (Z.to_nat (start - n))
             with (S (Z.to_nat (start - (n + 1)))) by lia.
           reflexivity.
    + destruct (Z.leb_spec start n) as [Hs|Hs].
      * replace (Z.to_nat (start - n)) with 0%nat by lia.
        replace (Z.to_nat (start - (n + 1))) with 0%nat by lia.
        reflexivity.
      * replace (Z.to_nat (start - n))
          with (S (Z.to_nat (start - (n + 1)))) by lia.
        reflexivity.
Qed.

(** X12: [read_lines] returns the stripped lines with index from [start]
    up to, not including, [end]: a negative [start] counts as 0, a negative
    or zero [end] gives no line, an [end] past the last line gives all of
    them, and no [end] means up to the last line. *)
Theorem read_lines_slice (f : list string) (start : Z) (end_ : option Z) :
  read_lines f start end_ =
    strip <$> drop (Z.to_nat start)
                (match end_ with
                 | Some stop => take (Z.to_nat stop) f
                 | None => f
                 end).
Proof.
  unfold read_lines. rewrite read_lines_from_slice.
  destruct end_; rewrite !Z.sub_0_r; reflexivity.
Qed.

(** X13: the lines read up to an index and the lines read from that index
    on are, together and in order, all the lines of the file, each once:
    what is replayed and what is copied after it leave no line out and
    repeat none. *)
Theorem read_lines_partition (f : list string) (n : Z) :
  (read_lines f 0 (Some n) ++ read_lines f n None)%list = strip <$> f.
Proof.
  unfold read_lines. rewrite !read_lines_from_slice.
  rewrite !Z.sub_0_r. change (Z.to_nat 0) with 0%nat.
  rewrite drop_0, <- fmap_app, take_drop. reflexivity.
Qed.

(** ** Locating the failure *)

Lemma split_length sep s : length (split sep s) = S (count_char sep s).
Proof.
  induction s as [|c r IH]; [reflexivity|].
  cbn [split count_char]. destruct (Ascii.eqb c sep).
  - cbn [length]. rewrite IH. reflexivity.
  - destruct (split sep r) as [|w ws]; [discriminate|]. exact IH.
Qed.

(** X14: [linenr_of] never returns -1.  When [search_str] does not occur
    in the content it raises [ValueError]; otherwise it returns the number,
    counted from 1, of the line in which the first occurrence starts: one
    more than the number of line feeds before it. *)
Theorem linenr_of_first_occurrence (content search_str : string) :
  match linenr_of content search_str with
  | inl exc =>
      exc = ValueError search_str /\
      forall i, substring i (String.length search_str) content <> search_str
  | inr n =>
      exists i,
        substring i (String.length search_str) content = search_str /\
        (forall j, (j < i)%nat ->
           substring j (String.length search_str) content <> search_str) /\
        n = Z.of_nat (S (count_char newline (substring 0 i content)))
  end.
Proof.
  unfold linenr_of.
  destruct (String.index 0 search_str content) as [i|] eqn:Hindex.
  - destruct (Z.eqb_spec (Z.of_nat i) (-1)) as [Hneg|_]; [lia|].
    exists i. split; [|split].
    + eapply String.index_correct1, Hindex.
    + intros j Hj. eapply String.index_correct2; [exact Hindex| |exact Hj]. lia.
    + rewrite split_length. reflexivity.
  - split; [reflexivity|]. intros i.
    eapply String.index_correct3; [exact Hindex| |lia].
    intros ->. destruct content; cbn in Hindex; discriminate.
Qed.

(** ** Reading the log *)

(** X15: [gcode_in_log] reads the log up to the first line that begins
    with neither [Send] nor [Recv]: that line and everything after it have
    no effect on the result. *)
Theorem gcode_in_log_stops (block : list string) (other : string)
    (rest : list string) :
  startswith "Send" other = false ->
  startswith "Recv" other = false ->
  gcode_in_log (block ++ other :: rest) = gcode_in_log block.
Proof.
  intros Hsend Hrecv. induction block as [|line block IH].
  - cbn [app gcode_in_log]. rewrite Hsend, Hrecv. reflexivity.
  - cbn [app gcode_in_log]. rewrite IH. reflexivity.
Qed.

(** X16: the lines that begin with [Recv] contribute nothing: removing
    them from the log does not change the result. *)
Theorem gcode_in_log_skips_received (f : list string) :
  gcode_in_log (List.filter (fun line => negb (startswith "Recv" line)) f) =
  gcode_in_log f.
Proof.
  induction f as [|line f IH]; [reflexivity|].
  cbn [List.filter gcode_in_log].
  destruct (startswith "Recv" line) eqn:Hrecv; cbn [negb].
  - assert (Hsend : startswith "Send" line = false).
    { destruct line as [|c r]; [reflexivity|].
      unfold startswith in *. cbn [String.prefix] in *.
      destruct (Ascii.ascii_dec "R" c) as [<-|]; [reflexivity|discriminate]. }
    rewrite Hsend. exact IH.
  - cbn [gcode_in_log]. rewrite Hrecv, IH. reflexivity.
Qed.

Lemma append_nil (s : string) : EmptyString +:+ s = s.
Proof. reflexivity. Qed.

Lemma append_cons c (a b : string) : String c a +:+ b = String c (a +:+ b).
Proof. reflexivity. Qed.

(** After the last asterisk of the line the dot finds no asterisk to end
    the match on. *)
Lemma greedy_after_last_star chk nl :
  count_char "*" chk = 0%nat ->
  nl = EmptyString \/ (exists r, nl = String newline r) ->
  greedy (fun c => negb (Ascii.eqb c newline))
    (match_here [ (Ascii.eqb "*", Once) ]) (chk +:+ nl) = None.
Proof.
  intros Hchk Hnl. induction chk as [|c k IH].
  - rewrite append_nil. destruct Hnl as [->|[r ->]]; reflexivity.
  - cbn [count_char] in Hchk.
    destruct (Ascii.eqb c "*") eqn:Hc; [discriminate|].
    rewrite append_cons. cbn [greedy]. rewrite (IH Hchk).
    cbn [match_here]. rewrite (Ascii.eqb_sym "*" c), Hc.
    destruct (negb (Ascii.eqb c newline)); reflexivity.
Qed.

(** The dot takes everything up to the last asterisk of the line. *)
Lemma greedy_to_last_star u chk nl :
  count_char newline u = 0%nat ->
  count_char "*" chk = 0%nat ->
  nl = EmptyString \/ (exists r, nl = String newline r) ->
  greedy (fun c => negb (Ascii.eqb c newline))
    (match_here [ (Ascii.eqb "*", Once) ])
    (u +:+ String "*" (chk +:+ nl)) = Some (S (String.length u)).
Proof.
  intros Hu Hchk Hnl. induction u as [|c u IH].
  - rewrite append_nil. cbn [greedy String.length].
    rewrite (greedy_after_last_star chk nl Hchk Hnl). reflexivity.
  - cbn [count_char] in Hu.
    destruct (Ascii.eqb c newline) eqn:Hc; [discriminate|].
    rewrite append_cons. cbn [greedy String.length]. rewrite Hc. cbn [negb].
    rewrite (IH Hu). reflexivity.
Qed.

(** The digits, then the dot: the match ends after the last asterisk
    wherever the digits end. *)
Lemma greedy_digits_to_last_star body chk nl :
  count_char newline body = 0%nat ->
  count_char "*" chk = 0%nat ->
  nl = EmptyString \/ (exists r, nl = String newline r) ->
  greedy isdigit
    (match_here [ (fun c => negb (Ascii.eqb c newline), ZeroOrMore);
                  (Ascii.eqb "*", Once) ])
    (body +:+ String "*" (chk +:+ nl)) = Some (S (String.length body)).
Proof.
  intros Hbody Hchk Hnl.
  assert (Hdot : forall u, count_char newline u = 0%nat ->
            match_here [ (fun c => negb (Ascii.eqb c newline), ZeroOrMore);
                         (Ascii.eqb "*", Once) ]
              (u +:+ String "*" (chk +:+ nl)) = Some (S (String.length u))).
  { intros u Hu. cbn [match_here]. apply greedy_to_last_star; assumption. }
  induction body as [|c body IH].
  - rewrite append_nil. cbn [greedy]. change (isdigit "*") with false. cbn iota.
    apply (Hdot EmptyString). reflexivity.
  - pose proof Hbody as Hbody'. cbn [count_char] in Hbody'.
    destruct (Ascii.eqb c newline); [discriminate|].
    rewrite append_cons. cbn [greedy String.length].
    destruct (isdigit c).
    + rewrite (IH Hbody'). reflexivity.
    + apply (Hdot (String c body)). exact Hbody.
Qed.

Lemma match_here_once cls pattern c r :
  match_here ((cls, Once) :: pattern) (String c r) =
    if cls c then S <$> match_here pattern r else None.
Proof. reflexivity. Qed.

Lemma match_here_plus cls pattern c r :
  match_here ((cls, OneOrMore) :: pattern) (String c r) =
    if cls c then S <$> greedy cls (match_here pattern) r else None.
Proof. reflexivity. Qed.

Lemma search_after_prefix pre s n :
  count_char "G" pre = 0%nat ->
  match_here gcode_pattern s = Some n ->
  forall pos,
    search gcode_pattern pos (pre +:+ s) =
      Some ((pos + String.length pre)%nat, (pos + String.length pre + n)%nat).
Proof.
  intros Hpre Hmatch. induction pre as [|c pre IH]; intros pos.
  - rewrite append_nil. cbn [String.length].
    destruct s; cbn [search]; rewrite Hmatch; do 2 f_equal; lia.
  - cbn [count_char] in Hpre.
    destruct (Ascii.eqb c "G") eqn:Hc; [discriminate|].
    rewrite append_cons. cbn [String.length search].
    assert (Hno : match_here gcode_pattern (String c (pre +:+ s)) = None).
    { unfold gcode_pattern. cbn [match_here].
      rewrite (Ascii.eqb_sym "G" c), Hc. reflexivity. }
    rewrite Hno, (IH Hpre). do 2 f_equal; lia.
Qed.

Lemma substring_after_prefix pre s n :
  substring (String.length pre) n (pre +:+ s) = substring 0 n s.
Proof. induction pre as [|c pre IH]; [reflexivity|]. cbn. exact IH. Qed.

Lemma substring_whole_prefix a b :
  substring 0 (String.length a) (a +:+ b) = a.
Proof.
  induction a as [|c a IH].
  - rewrite append_nil. destruct b; reflexivity.
  - rewrite append_cons. cbn [String.length substring]. rewrite IH. reflexivity.
Qed.

(** X17: from a [Send] line that holds, after a prefix without [G], a [G]
    followed by a digit, then any text up to a last asterisk (the checksum
    after it holding none), [gcode_in_log] takes the text from that [G] up
    to, not including, the last asterisk. *)
Theorem gcode_in_log_extracts (pre body chk nl : string) (dg : ascii)
    (f : list string) :
  startswith "Send"
    (pre +:+ String "G" (String dg (body +:+ String "*" (chk +:+ nl)))) = true ->
  count_char "G" pre = 0%nat ->
  isdigit dg = true ->
  count_char newline body = 0%nat ->
  count_char "*" chk = 0%nat ->
  nl = EmptyString \/ nl = String newline EmptyString ->
  gcode_in_log
    ((pre +:+ String "G" (String dg (body +:+ String "*" (chk +:+ nl)))) :: f) =
    match gcode_in_log f with
    | inl exc => inl exc
    | inr gcode => inr (String "G" (String dg body) :: gcode)
    end.
Proof.
  intros Hsend Hpre Hdg Hbody Hchk Hnl.
  assert (Hnl' : nl = EmptyString \/ (exists r, nl = String newline r)).
  { destruct Hnl as [->| ->]; eauto. }
  assert (Hmatch :
            match_here gcode_pattern
              (String "G" (String dg (body +:+ String "*" (chk +:+ nl)))) =
            Some (S (S (S (String.length body))))).
  { unfold gcode_pattern.
    rewrite match_here_once, Ascii.eqb_refl, match_here_plus, Hdg.
    rewrite (greedy_digits_to_last_star body chk nl Hbody Hchk Hnl').
    reflexivity. }
  cbn [gcode_in_log]. rewrite Hsend.
  rewrite (search_after_prefix pre _ _ Hpre Hmatch 0%nat).
  destruct (gcode_in_log f) as [exc|gcode]; [reflexivity|].
  do 2 f_equal.
  replace (0 + String.length pre + S (S (S (String.length body))) - 1
           - (0 + String.length pre))%nat
    with (String.length (String "G" (String dg body))) by (cbn; lia).
  cbn [Nat.add]. rewrite substring_after_prefix.
  apply (substring_whole_prefix (String "G" (String dg body))).
Qed.

(** ** When a move fails, and what a bad token raises *)

Lemma g0_succeeds (self : VirtualPrinter float) d :
  (abs_mode self = true \/
   (is_Some (x self) /\ is_Some (y self) /\ is_Some (z self))) ->
  (abs_e_mode self = true \/ is_Some (e self)) ->
  addable (x self) -> addable (y self) -> addable (z self) ->
  addable (e self) -> floats d ->
  (g0 self d).2 = None.
Proof.
  destruct self as [x0 y0 z0 e0 fr bt ht fs iu am aem reg].
  unfold g0, aug_add, assign. cbn -[args_get py_add addable].
  intros Hpos Hext Hx Hy Hz He Hd.
  destruct am, aem, x0, y0, z0, e0; cbn -[args_get py_add addable];
    g0_defined_paths d Hd;
    try reflexivity; exfalso; clear -Hpos Hext;
    repeat match goal with
           | H : _ \/ _ |- _ => destruct H
           | H : _ /\ _ |- _ => destruct H
           | H : is_Some None |- _ => destruct H
           end; discriminate.
Qed.

(** X18: on a printer with the registry of [create_printer], a G0 or G1
    move whose parameters parse ends normally, with [TypeError] or with
    [OverflowError].  When the known coordinates are floats or integers
    that convert to float there is no [OverflowError], and the move
    succeeds exactly when the position mode is absolute or x, y and z are
    all known, and the extrusion mode is absolute or e is known; the
    letters given in the line then play no part in it. *)
Theorem move_succeeds_exactly_when (self : VirtualPrinter float)
    (line cmd : string) (args : list string) (instr : GCodeInstruction float)
    (d : gmap string (PyNum float)) :
  instruction_set self = instruction_set create_printer ->
  cmd = "G0" \/ cmd = "G1" ->
  split " " (code_part line) = cmd :: args ->
  instruction_set self !! cmd = Some instr ->
  parse instr (code_part line) = inr d ->
  ((process_line self line).2 = None \/
   (process_line self line).2 = Some TypeError \/
   (process_line self line).2 = Some OverflowError) /\
  (addable (x self) -> addable (y self) -> addable (z self) ->
   addable (e self) ->
   (process_line self line).2 <> Some OverflowError /\
   ((process_line self line).2 = None <->
    (abs_mode self = true \/
     (is_Some (x self) /\ is_Some (y self) /\ is_Some (z self))) /\
    (abs_e_mode self = true \/ is_Some (e self)))).
Proof.
  intros Hreg Hcmd Hsplit Hinstr Hparse.
  destruct (move_floats self cmd instr _ d Hreg Hcmd Hinstr Hparse)
    as [Hfunc Hd].
  rewrite (process_line_dispatch self line cmd args instr Hsplit)
    by (auto; destruct Hcmd as [-> | ->]; discriminate).
  rewrite Hparse, Hfunc. cbn [call]. split.
  - destruct (g0 self d) as [self' [exc|]] eqn:Hg0; [|auto].
    destruct (g0_raises _ _ _ _ Hg0) as ([-> | ->] & _); auto.
  - intros Hx Hy Hz He.
    pose proof (fun Hpos Hext => g0_succeeds self d Hpos Hext Hx Hy Hz He Hd)
      as Hok.
    pose proof (fun Hcase =>
                  g0_unknown_coordinate_type self d Hcase Hx Hy Hz Hd)
      as Hfail.
    clear Hx Hy Hz He.
    destruct (abs_mode self), (abs_e_mode self),
      (x self) as [ax|], (y self) as [ay|], (z self) as [az|],
      (e self) as [ae|];
      first
        [ assert (Hnone : (g0 self d).2 = None)
            by (apply Hok; eauto 6);
          rewrite Hnone; split; [discriminate|];
          split; [intros _; eauto 6 | reflexivity]
        | assert (Hsome : (g0 self d).2 = Some TypeError)
            by (apply Hfail; eauto 6);
          rewrite Hsome; split; [discriminate|];
          split; [discriminate|];
          intros [[Ha|(Hx & Hy & Hz)] [Hb|He]];
          try discriminate;
          repeat match goal with
                 | H : is_Some None |- _ => destruct H as [? H]
                 end; discriminate ].
Qed.

(** The loop passes the well-formed tokens that carry no required letter
    and goes on with the rest. *)
Lemma parse_loop_good_prefix self cmd args1 rest :
  Forall (fun arg => well_formed_token self arg /\ optional_token self arg)
    args1 ->
  forall d required p,
  exists d' p',
    parse_loop self cmd (args1 ++ rest) d required p =
    parse_loop self cmd rest d' required p'.
Proof.
  induction 1 as [|arg args1 [Hwf Hopt] _ IH]; intros d required p.
  - exists d, p. reflexivity.
  - destruct arg as [|c0 lit0]; [destruct Hwf|].
    cbn [app parse_loop]. unfold well_formed_token in Hwf. cbn in Hopt.
    destruct (params self !! String c0 EmptyString) as [q|].
    + rewrite Hopt.
      rewrite bool_decide_eq_false_2 by (intros [? ?]; discriminate).
      destruct Hwf as [v ->]. apply IH.
    + rewrite Hwf. apply IH.
Qed.

(** X19: after well-formed tokens that carry no required letter, the first
    token that is not well formed decides what [parse] raises: an empty
    token (from a doubled space) raises [IndexError]; a letter that is not
    declared, under the fail policy, raises the [RuntimeError] naming the
    command and the letter; an optional letter whose literal its type
    rejects raises [ValueError]. *)
Theorem parse_first_bad_token (self : GCodeInstruction float)
    (gcode cmd bad : string) (args1 args2 : list string) :
  split " " gcode = cmd :: args1 ++ bad :: args2 ->
  Forall (fun arg => well_formed_token self arg /\ optional_token self arg)
    args1 ->
  (bad = EmptyString -> parse self gcode = inl IndexError) /\
  (forall c literal,
     bad = String c literal ->
     params self !! String c EmptyString = None ->
     instr_ignore_unknown self = false ->
     parse self gcode =
       inl (RuntimeError (has_no_parameter cmd (String c EmptyString)))) /\
  (forall c literal (q : GParameter float),
     bad = String c literal ->
     params self !! String c EmptyString = Some q ->
     required_params self !! String c EmptyString = None ->
     type q literal = None ->
     parse self gcode = inl (ValueError literal)).
Proof.
  intros Hsplit Hgood. unfold parse. rewrite Hsplit.
  destruct (parse_loop_good_prefix self cmd args1 (bad :: args2) Hgood ∅ ∅ None)
    as (d' & p' & ->).
  split; [|split].
  - intros ->. reflexivity.
  - intros c literal -> Hundeclared Hpolicy.
    cbn [parse_loop]. rewrite Hundeclared, Hpolicy. reflexivity.
  - intros c literal q -> Hdeclared Hoptional Hreject.
    cbn [parse_loop]. rewrite Hdeclared, Hoptional.
    rewrite bool_decide_eq_false_2 by (intros [? ?]; discriminate).
    rewrite Hreject. reflexivity.
Qed.

(** ** The line number of the failure *)

Lemma file_lines_concat content : concat_lines (file_lines content) = content.
Proof.
  induction content as [|c r IH]; [reflexivity|].
  cbn [file_lines]. destruct (Ascii.eqb c newline).
  - cbn [concat_lines foldr]. fold (concat_lines (file_lines r)).
    rewrite append_cons, append_nil, IH. reflexivity.
  - destruct (file_lines r) as [|line lines].
    + cbn in IH. subst r. reflexivity.
    + cbn [concat_lines foldr] in *. rewrite append_cons, IH. reflexivity.
Qed.

Lemma count_char_append c a b :
  count_char c (a +:+ b) = (count_char c a + count_char c b)%nat.
Proof.
  induction a as [|c' a IH]; [reflexivity|].
  rewrite append_cons. cbn [count_char]. rewrite IH. lia.
Qed.

(** Every line before the last one ends with its line feed and holds no
    other. *)
Lemma file_lines_count content :
  forall k, (k < length (file_lines content))%nat ->
  count_char newline (concat_lines (take k (file_lines content))) = k.
Proof.
  induction content as [|c r IH]; intros k Hk; [cbn in Hk; lia|].
  cbn [file_lines] in *. destruct (Ascii.eqb c newline) eqn:Hc.
  - destruct k as [|k]; [reflexivity|].
    cbn [length] in Hk. cbn [take concat_lines foldr].
    fold (concat_lines (take k (file_lines r))).
    rewrite append_cons, append_nil. cbn [count_char]. rewrite Hc.
    rewrite IH by lia. reflexivity.
  - destruct (file_lines r) as [|line lines].
    + cbn [length] in Hk. destruct k; [reflexivity|lia].
    + destruct k as [|k]; [reflexivity|].
      specialize (IH (S k) Hk).
      cbn [take concat_lines foldr] in *.
      rewrite append_cons. cbn [count_char]. rewrite Hc. exact IH.
Qed.

Lemma concat_lines_app a b :
  concat_lines (a ++ b) = concat_lines a +:+ concat_lines b.
Proof.
  induction a as [|l a IH]; [reflexivity|].
  change (concat_lines ((l :: a) ++ b)) with (l +:+ concat_lines (a ++ b)).
  change (concat_lines (l :: a)) with (l +:+ concat_lines a).
  rewrite IH. generalize (concat_lines a) (concat_lines b). clear.
  intros u v. induction l as [|c l IHl]; [reflexivity|].
  rewrite !append_cons, IHl. reflexivity.
Qed.

(** X20: when the first occurrence of [search_str] in the content starts
    where a line of the file starts, [linenr_of] returns the number of that
    line counted from 1, that is the index of the line in [enumerate(f)]
    plus one. *)
Theorem linenr_of_line_start (content search_str : string) (k : nat) :
  (k < length (file_lines content))%nat ->
  String.index 0 search_str content =
    Some (String.length (concat_lines (take k (file_lines content)))) ->
  linenr_of content search_str = inr (Z.of_nat k + 1).
Proof.
  intros Hk Hindex. unfold linenr_of. rewrite Hindex.
  destruct (Z.eqb_spec
              (Z.of_nat (String.length
                           (concat_lines (take k (file_lines content)))))
              (-1)) as [Hneg|_]; [lia|].
  rewrite split_length.
  rewrite <- (file_lines_concat content) at 2.
  rewrite <- (take_drop k (file_lines content)) at 2.
  rewrite concat_lines_app, substring_whole_prefix.
  rewrite (file_lines_count content k Hk). f_equal. lia.
Qed.

End Properties.

(** * Concrete runs, on binary64 floats *)

Import Binary64.

(** C1: the spec's scenario 5.  From a fresh printer, [G91] then [G1 X5]
    fails, x still unknown, with a [TypeError]: not an exception of a class
    [InvalidStateError], and its message does not name X. *)
Lemma C1_scenario5_counterexample :
  (run_gcode create_printer ["G91"; "G1 X5"]).2 = Some TypeError /\
  x (run_gcode create_printer ["G91"; "G1 X5"]).1 = None /\
  ~ InvalidStateError_naming "X" TypeError.
Proof.
  split; [vm_compute; reflexivity|]. split; [vm_compute; reflexivity|].
  intros [Hclass _]. cbn in Hclass. discriminate.
Qed.

Lemma C1_witness :
  exists self' exc,
    process_line relative_printer "G1 X5" = (self', Some exc) /\
    (exc = TypeError \/ exc = OverflowError) /\
    exc_names exc = ∅ /\
    (addable (x relative_printer) -> addable (y relative_printer) ->
     addable (z relative_printer) -> exc = TypeError) /\
    e self' = e relative_printer /\
    (abs_mode relative_printer = false ->
     (x relative_printer = None -> x self' = None) /\
     (y relative_printer = None -> y self' = None) /\
     (z relative_printer = None -> z self' = None)).
Proof.
  eapply (C1_relative_move_unknown_coordinate relative_printer
            "G1 X5" "G1" ["X5"]).
  - reflexivity.
  - right. reflexivity.
  - reflexivity.
  - reflexivity.
  - reflexivity.
  - left. split; [reflexivity|]. left. reflexivity.
Defined.



(** C3 at the failing input: [G1 X10 F3000] on a fresh printer leaves the
    feed rate unknown. *)
Lemma C3_witness :
  split " " (code_part "G1 X10 F3000") = ["G1"; "X10"; "F3000"] /\
  feed_rate (process_line create_printer "G1 X10 F3000").1 = None.
Proof.
  split; [reflexivity|].
  exact (C3_g1_leaves_feed_rate create_printer "G1 X10 F3000"
           ["X10"; "F3000"] eq_refl eq_refl).
Defined.

(** C4 at the failing input: M104 registered with S required, and the line
    [M104 S200]. *)
Lemma C4_witness :
  instruction_set
    (register_gcode "M104" [("S", py_float)] [] h_m104 true strict_printer)
    !! "M104" = Some (m104_required true) /\
  parse (m104_required true) "M104 S200" = inl (UnboundLocalError "p").
Proof.
  split; [reflexivity|].
  apply (C4_required_letter_first_raises (m104_required true)
           "M104 S200" "M104" "S" "200" []).
  - reflexivity.
  - eexists. reflexivity.
Defined.

(** C5 at the failing input: G5 registered with X and Y required and Z
    optional.  In [G5 Z0 X1] only Y is absent, and the error reports the
    full set of required letters, X with it. *)
Lemma C5_witness :
  instruction_set
    (register_gcode "G5" [("X", py_float); ("Y", py_float)] [("Z", py_float)]
       h_g0 true strict_printer) !! "G5" = Some g5_required /\
  "X" ∈ dom (required_params g5_required) /\
  parse g5_required "G5 Z0 X1" =
    inl (RuntimeError
           (required_arguments_missing "G5"
              (dom (required_params g5_required)))).
Proof.
  split; [reflexivity|].
  apply (C5_given_letter_reported_missing g5_required
           "G5 Z0 X1" "G5" "Z" "X" "0" "1" [] []).
  - reflexivity.
  - intros k q. unfold params, g5_required.
    cbn [optional_params required_params].
    intros [Hq|[_ Hq]]%lookup_union_Some_raw; eapply param_dict_char, Hq.
  - eexists. reflexivity.
  - repeat constructor. vm_compute. eexists. reflexivity.
  - eexists. reflexivity.
  - vm_compute. eexists. reflexivity.
  - constructor.
Defined.

(** X21: M104 registered with S required; [M104 T0] carries no required
    letter. *)
Lemma no_required_letter_all_reported_witness :
  parse (m104_required true) "M104 T0" =
    inl (RuntimeError
           (required_arguments_missing "M104"
              (dom (required_params (m104_required true))))).
Proof.
  apply (no_required_letter_all_reported (m104_required true)
           "M104 T0" "M104" ["T0"]).
  - reflexivity.
  - intros Heq.
    apply (f_equal (fun m : gmap string (GParameter PrimFloat.float) =>
                      match m !! "S" with Some _ => true | None => false end))
      in Heq.
    vm_compute in Heq. discriminate.
  - repeat constructor.
Defined.

(** C6: under the fail policy a blank line, and a comment after blanks,
    raise. *)
Lemma C6_blank_line_counterexample :
  strip "" = "" /\
  process_line strict_printer "" =
    (strict_printer, Some (RuntimeError (unknown_instruction ""))) /\
  startswith ";" (strip "  ; note") = true /\
  process_line strict_printer "  ; note" =
    (strict_printer, Some (RuntimeError (unknown_instruction ""))).
Proof. repeat split. Qed.

Lemma C6_witness :
  process_line relative_printer "; just a comment" = (relative_printer, None) /\
  process_line relative_printer "  ; note" = (relative_printer, None).
Proof.
  split.
  - exact (proj1 (C6_comment_and_blank_lines relative_printer "; just a comment")
             eq_refl).
  - exact (proj2 (C6_comment_and_blank_lines relative_printer "  ; note")
             (or_intror eq_refl) eq_refl).
Defined.

Lemma C7_witness :
  exists self',
    process_line relative_printer "G28 X Y ; home" = (self', None) /\
    x self' = Some (PInt 0) /\ y self' = Some (PInt 0) /\
    z self' = Some (PInt 0) /\
    e self' = e relative_printer /\
    bed_temp self' = bed_temp relative_printer /\
    hotend_temp self' = hotend_temp relative_printer /\
    fan_speed self' = fan_speed relative_printer /\
    feed_rate self' = feed_rate relative_printer /\
    abs_mode self' = abs_mode relative_printer /\
    abs_e_mode self' = abs_e_mode relative_printer.
Proof.
  apply (C7_g28_homes_xyz_only relative_printer "G28 X Y ; home" ["X"; "Y"]).
  - reflexivity.
  - reflexivity.
  - repeat constructor; discriminate.
Defined.

Lemma C8_witness :
  exists self',
    process_line relative_printer "G92 E0 X1.5" = (self', None) /\
    x self' = py_float "1.5" /\ y self' = None /\ z self' = None /\
    e self' = py_float "0" /\
    feed_rate self' = None /\ bed_temp self' = None /\
    hotend_temp self' = None /\ fan_speed self' = None /\
    abs_mode self' = false /\ abs_e_mode self' = false.
Proof.
  apply (C8_g92_sets_given_coordinates relative_printer "G92 E0 X1.5"
           ["E0"; "X1.5"]).
  - reflexivity.
  - reflexivity.
  - repeat constructor; vm_compute; eexists; reflexivity.
Defined.

(** X1 on [G92 E0 X1.5]. *)
Lemma parse_succeeds_without_required_witness :
  exists d,
    parse (declaration "G92"
             [("X", py_float); ("Y", py_float); ("Z", py_float);
              ("E", py_float)] h_g92) "G92 E0 X1.5" = inr d /\
    forall k, is_Some (d !! k) <->
      exists c literal,
        k = String c EmptyString /\ In (String c literal) ["E0"; "X1.5"] /\
        is_Some (params (declaration "G92"
                           [("X", py_float); ("Y", py_float); ("Z", py_float);
                            ("E", py_float)] h_g92) !! k).
Proof.
  apply (parse_succeeds_without_required
           (declaration "G92"
              [("X", py_float); ("Y", py_float); ("Z", py_float);
               ("E", py_float)] h_g92) "G92 E0 X1.5" "G92" ["E0"; "X1.5"]).
  - reflexivity.
  - reflexivity.
  - apply declaration_char.
  - repeat constructor; vm_compute; eexists; reflexivity.
Defined.

(** X2 on [G5], which nothing registers. *)
Lemma unknown_command_policy_witness :
  process_line relative_printer "G5" = (relative_printer, None) /\
  process_line strict_printer "G5" =
    (strict_printer, Some (RuntimeError (unknown_instruction "G5"))).
Proof.
  split.
  - exact (unknown_command_policy relative_printer "G5" "G5" []
             eq_refl eq_refl eq_refl).
  - exact (unknown_command_policy strict_printer "G5" "G5" []
             eq_refl eq_refl eq_refl).
Defined.

(** X3 on [G0 X10 F3000], from a fresh printer: the feed rate is set. *)
Lemma g0_absolute_move_witness :
  exists self',
    process_line create_printer "G0 X10 F3000" = (self', None) /\
    x self' = py_float "10" /\ y self' = None /\ z self' = None /\
    e self' = None /\ feed_rate self' = py_float "3000" /\
    bed_temp self' = None /\ hotend_temp self' = None /\
    fan_speed self' = None /\
    abs_mode self' = true /\ abs_e_mode self' = true.
Proof.
  apply (g0_absolute_move create_printer "G0 X10 F3000" ["X10"; "F3000"]).
  - reflexivity.
  - reflexivity.
  - repeat constructor; vm_compute; eexists; reflexivity.
  - reflexivity.
  - reflexivity.
Defined.

(** X4 on [M82] after [G91]: extrusion back to absolute, position still
    relative. *)
Lemma modal_commands_witness :
  exists self',
    process_line relative_printer "M82" = (self', None) /\
    abs_mode self' = false /\ abs_e_mode self' = true /\
    x self' = x relative_printer /\ y self' = y relative_printer /\
    z self' = z relative_printer /\ e self' = e relative_printer /\
    feed_rate self' = feed_rate relative_printer /\
    bed_temp self' = bed_temp relative_printer /\
    hotend_temp self' = hotend_temp relative_printer /\
    fan_speed self' = fan_speed relative_printer.
Proof.
  apply (modal_commands relative_printer "M82" "M82" []).
  - reflexivity.
  - reflexivity.
  - constructor.
  - right. right. left. reflexivity.
Defined.

(** X6 on a homed printer and a replay that ends in a [ValueError]. *)
Lemma run_gcode_known_stays_known_witness :
  is_Some (x (run_gcode homed_relative_printer
                ["G1 X5"; "G90"; "G1 Xabc"; "G28"]).1).
Proof.
  apply (proj1 (run_gcode_known_stays_known homed_relative_printer
                  ["G1 X5"; "G90"; "G1 Xabc"; "G28"])).
  eexists. reflexivity.
Defined.

(** X9 on [M140 S60], from a fresh printer. *)
Lemma temperature_and_fan_commands_witness :
  exists self',
    process_line create_printer "M140 S60" = (self', None) /\
    hotend_temp self' = None /\ bed_temp self' = py_float "60" /\
    fan_speed self' = None /\
    x self' = None /\ y self' = None /\ z self' = None /\ e self' = None /\
    feed_rate self' = None /\ abs_mode self' = true /\ abs_e_mode self' = true.
Proof.
  apply (temperature_and_fan_commands create_printer "M140 S60" "M140" ["S60"]).
  - reflexivity.
  - reflexivity.
  - right. right. left. reflexivity.
  - repeat constructor. intros _. vm_compute. eexists. reflexivity.
Defined.

(** X10 on [G1 X5 E1.5]: x and e move, y and z have the integer 0 added. *)
Lemma g1_relative_move_witness :
  exists self' sx sy sz se,
    process_line homed_relative_printer "G1 X5 E1.5" = (self', None) /\
    x self' = Some sx /\
    given "X" ["X5"; "E1.5"] (Some (PInt 0)) ≫= py_add (PInt 0) = Some sx /\
    y self' = Some sy /\
    given "Y" ["X5"; "E1.5"] (Some (PInt 0)) ≫= py_add (PInt 0) = Some sy /\
    z self' = Some sz /\
    given "Z" ["X5"; "E1.5"] (Some (PInt 0)) ≫= py_add (PInt 0) = Some sz /\
    e self' = Some se /\
    given "E" ["X5"; "E1.5"] (Some (PInt 0)) ≫= py_add (PInt 0) = Some se /\
    feed_rate self' = feed_rate homed_relative_printer /\
    bed_temp self' = bed_temp homed_relative_printer /\
    hotend_temp self' = hotend_temp homed_relative_printer /\
    fan_speed self' = fan_speed homed_relative_printer /\
    abs_mode self' = false /\ abs_e_mode self' = false.
Proof.
  apply (g1_relative_move homed_relative_printer "G1 X5 E1.5" ["X5"; "E1.5"]
           (PInt 0) (PInt 0) (PInt 0) (PInt 0)).
  - reflexivity.
  - reflexivity.
  - repeat constructor; vm_compute; eexists; reflexivity.
  - reflexivity.
  - reflexivity.
  - reflexivity.
  - reflexivity.
  - reflexivity.
  - reflexivity.
  - apply float_of_int_0.
  - apply float_of_int_0.
  - apply float_of_int_0.
  - apply float_of_int_0.
Defined.

(** An integer coordinate too large for a float: from x at 10^400 in
    relative mode, [G1 X5] raises [OverflowError] at the addition of the
    float 5.0, and [G1], which adds the integer 0, succeeds. *)
Example g1_integer_too_large :
  (process_line (set_x (Some (PInt (10 ^ 400))) homed_relative_printer)
     "G1 X5").2 = Some OverflowError /\
  (process_line (set_x (Some (PInt (10 ^ 400))) homed_relative_printer)
     "G1").2 = None.
Proof. split; vm_compute; reflexivity. Qed.

(** X11: registering G1 a second time, with F, on the printer of
    [create_printer] leaves G0 as it was registered. *)
Lemma register_gcode_last_wins_witness :
  instruction_set
    (register_gcode "G1" [] [("F", py_float)] h_g0 true create_printer)
    !! "G0" = instruction_set create_printer !! "G0".
Proof.
  apply (proj1 (proj2 (proj2
           (register_gcode_last_wins create_printer "G1" [] [] []
              [("F", py_float)] h_g0 h_g0 true true)))).
  discriminate.
Defined.

(** X15 on a log whose third line is not a command sent or received. *)
Lemma gcode_in_log_stops_witness :
  gcode_in_log
    (["Send: N1 G28*18"; "Recv: ok"]
       ++ "Changing monitoring state" :: ["Send: N2 G1 X5*3"]) =
  gcode_in_log ["Send: N1 G28*18"; "Recv: ok"].
Proof.
  apply (gcode_in_log_stops ["Send: N1 G28*18"; "Recv: ok"]
           "Changing monitoring state" ["Send: N2 G1 X5*3"]); reflexivity.
Defined.

(** X17 on the line [Send: N12 G1 X5 Y2*97] with its line feed. *)
Lemma gcode_in_log_extracts_witness :
  gcode_in_log
    [ "Send: N12 " +:+
      String "G" (String "1" (" X5 Y2" +:+
        String "*" ("97" +:+ String newline EmptyString))) ] =
  inr [ "G1 X5 Y2" ].
Proof.
  apply (gcode_in_log_extracts "Send: N12 " " X5 Y2" "97"
           (String newline EmptyString) "1" []).
  - reflexivity.
  - reflexivity.
  - reflexivity.
  - reflexivity.
  - reflexivity.
  - right. reflexivity.
Defined.

(** X20: the search string starts at the second line of a file of three
    lines. *)
Lemma linenr_of_line_start_witness :
  linenr_of
    ("G28" +:+ String newline ("G1 X1" +:+ String newline
       ("G1 X2" +:+ String newline EmptyString)))
    ("G1 X1" +:+ String newline "G1 X2") = inr 2.
Proof.
  apply (linenr_of_line_start _ _ 1); [vm_compute; lia | reflexivity].
Defined.

(** X18 on the homed printer in relative modes: [G1 X5] succeeds. *)
Lemma move_succeeds_exactly_when_witness :
  (process_line homed_relative_printer "G1 X5").2 = None.
Proof.
  destruct (move_succeeds_exactly_when homed_relative_printer
              "G1 X5" "G1" ["X5"] _ _ eq_refl (or_intror eq_refl)
              eq_refl eq_refl eq_refl) as [_ Hwhen].
  apply Hwhen; try apply float_of_int_0.
  split; right; [repeat split|]; eexists; reflexivity.
Defined.

(** X19 on [G1  X5], with its doubled space. *)
Lemma parse_first_bad_token_witness :
  split " " "G1  X5" = ["G1"; ""; "X5"] /\
  parse (declaration "G1"
           [("X", py_float); ("Y", py_float); ("Z", py_float);
            ("E", py_float)] h_g0) "G1  X5" = inl IndexError.
Proof.
  split; [reflexivity|].
  apply (proj1 (parse_first_bad_token
                  (declaration "G1"
                     [("X", py_float); ("Y", py_float); ("Z", py_float);
                      ("E", py_float)] h_g0)
                  "G1  X5" "G1" "" [] ["X5"] eq_refl
                  (List.Forall_nil _))).
  reflexivity.
Defined.
